(** * TruthSig: the web client's pure logic and the integrity engine

    The development follows the TypeScript sources of the web client
    ([web/src/app/page.tsx], [web/src/app/app/cases/[id]/page.tsx] and the
    earlier revision of the case page) and, for the engine components whose
    sources are not part of the tree, the prose design.

    JavaScript values are an inductive type, numbers are IEEE-754 binary64
    (Rocq's primitive floats), exceptions are an explicit error monad, and the
    React state setters and the browser download are recorded in an outcome
    record. *)

From Stdlib Require Import Floats String Ascii List ZArith Lia Bool Arith.
From stdpp Require Import base list sorting gmap.

Import ListNotations.
Local Open Scope list_scope.
Local Open Scope string_scope.
Local Set Warnings "-register-all".

(** ** Exceptions

    A thrown value is represented by its [message]; the empty string stands
    for a thrown value without a (truthy) message. *)

Inductive Exc (A : Type) : Type :=
| Ok (a : A)
| Throw (msg : string).
Arguments Ok {A} a.
Arguments Throw {A} msg.

Definition bindE {A B : Type} (m : Exc A) (k : A -> Exc B) : Exc B :=
  match m with
  | Ok a => k a
  | Throw e => Throw e
  end.

Notation "x <-! m ;; k" := (bindE m (fun x => k))
  (at level 100, m at next level, right associativity).

(** ** Strings

    Strings are sequences of 8-bit code points (Latin-1); the content types
    and identifiers the pages handle are of that kind. *)

Module Str.

(** [String.prototype.includes]. *)
Fixpoint includes (needle hay : string) : bool :=
  String.prefix needle hay
  || match hay with
     | EmptyString => false
     | String _ rest => includes needle rest
     end.

(** [String.prototype.toLowerCase] on Latin-1: A-Z and the accented
    capitals U+00C0..U+00DE (U+00D7 excepted) move up by 32. *)
Definition lower_char (c : ascii) : ascii :=
  let n := nat_of_ascii c in
  if ((65 <=? n) && (n <=? 90)
      || (192 <=? n) && (n <=? 222) && negb (n =? 215))%nat
  then ascii_of_nat (n + 32) else c.

Fixpoint toLowerCase (s : string) : string :=
  match s with
  | EmptyString => EmptyString
  | String c rest => String (lower_char c) (toLowerCase rest)
  end.

(** White space and line terminators of ECMAScript below U+0100. The ones
    above (U+1680, U+2000..U+200A, U+2028, U+2029, U+202F, U+205F, U+3000,
    U+FEFF), which [String.prototype.trim] strips as well, are not
    characters of these strings. *)
Definition is_space (c : ascii) : bool :=
  let n := nat_of_ascii c in
  ((9 <=? n) && (n <=? 13) || (n =? 32) || (n =? 160))%nat.

Fixpoint trimStart (s : string) : string :=
  match s with
  | EmptyString => EmptyString
  | String c rest => if is_space c then trimStart rest else s
  end.

Fixpoint rev_string (s acc : string) : string :=
  match s with
  | EmptyString => acc
  | String c rest => rev_string rest (String c acc)
  end.

Definition trimEnd (s : string) : string :=
  rev_string (trimStart (rev_string s EmptyString)) EmptyString.

(** [String.prototype.trim]. *)
Definition trim (s : string) : string := trimEnd (trimStart s).

(** [a || b] on strings: the empty string is falsy. *)
Definition or_else (a b : string) : string :=
  match a with
  | EmptyString => b
  | _ => a
  end.

Definition is_empty (s : string) : bool :=
  match s with
  | EmptyString => true
  | _ => false
  end.

(** [String.prototype.endsWith]. *)
Definition endsWith (suffix s : string) : bool :=
  String.prefix (rev_string suffix EmptyString) (rev_string s EmptyString).

End Str.

(** ** JavaScript values *)

Module Js.

Inductive value : Type :=
| Undefined
| Null
| Bool (b : bool)
| Num (x : float)
| Str (s : string)
| Arr (items : list value)
| Obj (fields : list (string * value)).

(** The [typeof] operator. *)
Definition typeof (v : value) : string :=
  match v with
  | Undefined => "undefined"
  | Null => "object"
  | Bool _ => "boolean"
  | Num _ => "number"
  | Str _ => "string"
  | Arr _ => "object"
  | Obj _ => "object"
  end.

Definition isArray (v : value) : bool :=
  match v with
  | Arr _ => true
  | _ => false
  end.

Definition is_nullish (v : value) : bool :=
  match v with
  | Undefined | Null => true
  | _ => false
  end.

Fixpoint lookup_field (k : string) (fields : list (string * value)) : value :=
  match fields with
  | [] => Undefined
  | (k', v) :: rest => if String.eqb k k' then v else lookup_field k rest
  end.

(** The message of the [TypeError] thrown when a property is read from
    [null] or [undefined]. Its wording is the engine's own and names the
    property; this text stands in for it. *)
Definition type_error : string := "TypeError: Cannot read properties".

(** [v.k] for a key [k] that is not a built-in property of strings,
    arrays, numbers or booleans (none of the keys the pages read is):
    reading from [null] or [undefined] throws, an object answers with its
    field, every other value answers [undefined]. *)
Definition get (v : value) (k : string) : Exc value :=
  match v with
  | Undefined | Null => Throw type_error
  | Obj fields => Ok (lookup_field k fields)
  | _ => Ok Undefined
  end.

Definition char_at (s : string) (i : nat) : value :=
  match String.get i s with
  | Some c => Str (String c EmptyString)
  | None => Undefined
  end.

Fixpoint nat_to_digits (fuel n : nat) (acc : string) : string :=
  let acc' := String (ascii_of_nat (48 + n mod 10)) acc in
  match fuel with
  | O => acc'
  | S fuel' => if (n / 10 =? 0)%nat then acc' else nat_to_digits fuel' (n / 10) acc'
  end.

Definition index_key (i : nat) : string := nat_to_digits i i EmptyString.

(** [v[i]] for an array index [i]. *)
Definition index (v : value) (i : nat) : Exc value :=
  match v with
  | Undefined | Null => Throw type_error
  | Arr items => Ok (nth i items Undefined)
  | Str s => Ok (char_at s i)
  | Obj fields => Ok (lookup_field (index_key i) fields)
  | _ => Ok Undefined
  end.

(** [a ?? b] inside a chain of property reads: the left operand is
    evaluated first, and the right one only when the left one is [null] or
    [undefined]. *)
Definition coalesce (a b : Exc value) : Exc value :=
  match a with
  | Throw e => Throw e
  | Ok v => if is_nullish v then b else Ok v
  end.

(** [a ?? b] on two values. *)
Definition nullish_or (a b : value) : value :=
  if is_nullish a then b else a.

(** [a?.k]. *)
Definition opt_get (a : value) (k : string) : Exc value :=
  if is_nullish a then Ok Undefined else get a k.

(** Truthiness of a number: [0], [-0] and [NaN] are falsy. *)
Definition num_truthy (x : float) : bool :=
  negb (PrimFloat.eqb x 0%float || PrimFloat.is_nan x).

(** [ToBoolean]. *)
Definition truthy (v : value) : bool :=
  match v with
  | Undefined | Null => false
  | Bool b => b
  | Num x => num_truthy x
  | Str s => negb (Str.is_empty s)
  | Arr _ | Obj _ => true
  end.

(** [a || b] on values. *)
Definition or_else (a b : value) : value := if truthy a then a else b.

(** [v === "lit"] for a string literal. *)
Definition is_str (v : value) (lit : string) : bool :=
  match v with
  | Str s => String.eqb s lit
  | _ => false
  end.

End Js.

(** ** Fetch responses

    What a page observes of a [Response]: the [ok] flag, the [content-type]
    header ([headers.get] answers [null] when it is absent) and the outcome
    of each body reader. *)

Module Fetch.

Record Response : Type := {
  ok : bool;
  content_type : option string;
  blob : Exc string;
  text : Exc string;
  json : Exc Js.value
}.

(** [p.catch(() => d)]. *)
Definition catch {A : Type} (m : Exc A) (d : A) : A :=
  match m with
  | Ok a => a
  | Throw _ => d
  end.

End Fetch.

(** ** The case page: [asStringParam]

    The function is the same in both revisions of the case page. *)

Module CasePage.

(** [if (typeof v === "string") return v;
     if (Array.isArray(v) && typeof v[0] === "string") return v[0];
     return "";] *)
Definition asStringParam (v : Js.value) : Exc Js.value :=
  if String.eqb (Js.typeof v) "string" then Ok v
  else
    c <-! (if Js.isArray v
           then e <-! Js.index v 0 ;; Ok (String.eqb (Js.typeof e) "string")
           else Ok false) ;;
    if (c : bool) then Js.index v 0 else Ok (Js.Str "").

(** What the function is expected to return. *)
Definition asStringParam_expected (v : Js.value) : string :=
  match v with
  | Js.Str s => s
  | Js.Arr (Js.Str s :: _) => s
  | _ => ""
  end.

(** The content handed to [downloadBlob]. *)
Inductive payload : Type :=
| ResponseBlob (body : string)
| TextBlob (content : string) (mime : string)
| JsonDump (data : Js.value) (mime : string).

(** What a report handler leaves behind: the page's [busy] and [err]
    state and the file offered for download, if any. *)
Record Outcome : Type := {
  busy : bool;
  err : option string;
  download : option (payload * string)
}.

Definition failed (busy0 : bool) (msg : string) : Outcome :=
  {| busy := busy0; err := Some msg; download := None |}.

(** [try { body } catch (e) { setErr(e?.message || fallback) }
     finally { setBusy(false) }], entered after [setErr(null)]. *)
Definition try_catch (body : Exc (option string * (payload * string)))
  (fallback : string) : Outcome :=
  match body with
  | Ok (msg, file) => {| busy := false; err := msg; download := Some file |}
  | Throw m => failed false (Str.or_else m fallback)
  end.

(** [if (!res.ok) { const t = await res.text(); throw new Error(t || msg); }] *)
Definition require_ok (res : Fetch.Response) (msg : string) : Exc unit :=
  if Fetch.ok res then Ok tt
  else t <-! Fetch.text res ;; Throw (Str.or_else t msg).

Definition markdown_notice : string :=
  "Backend returned MARKDOWN (not PDF). Downloaded as .md. If you want PDF, backend must return application/pdf.".

Definition json_notice : string :=
  "Backend returned JSON (not PDF). Downloaded as .json.".

Definition other_notice (ct : string) : string :=
  "Backend did not return a PDF. Downloaded as .txt (content-type: "
  ++ Str.or_else ct "unknown" ++ ").".

(** [(res.headers.get("content-type") || "").toLowerCase()] *)
Definition lowered_content_type (res : Fetch.Response) : string :=
  Str.toLowerCase
    (Str.or_else (match Fetch.content_type res with
                  | Some h => h
                  | None => ""
                  end) "").

(** The body of the [try] block of [generateReport], after the request
    [POST /report] has been answered with [res]. *)
Definition generateReport_body (caseId : string) (res : Fetch.Response)
  : Exc (option string * (payload * string)) :=
  _ <-! require_ok res "Report generation failed" ;;
  let ct := lowered_content_type res in
  if Str.includes "application/pdf" ct then
    b <-! Fetch.blob res ;;
    Ok (None, (ResponseBlob b, "truthsig-report-" ++ caseId ++ ".pdf"))
  else if Str.includes "application/json" ct then
    let data := Fetch.catch (Fetch.json res) Js.Null in
    md <-! Js.opt_get data "markdown" ;;
    match md with
    | Js.Str m =>
        if negb (Str.is_empty (Str.trim m)) then
          Ok (Some markdown_notice,
              (TextBlob m "text/markdown;charset=utf-8",
               "truthsig-report-" ++ caseId ++ ".md"))
        else
          Ok (Some json_notice,
              (JsonDump (Js.nullish_or data (Js.Obj []))
                 "application/json;charset=utf-8",
               "truthsig-report-" ++ caseId ++ ".json"))
    | _ =>
        Ok (Some json_notice,
            (JsonDump (Js.nullish_or data (Js.Obj []))
               "application/json;charset=utf-8",
             "truthsig-report-" ++ caseId ++ ".json"))
    end
  else
    raw <-! Fetch.text res ;;
    Ok (Some (other_notice ct),
        (TextBlob raw (Str.or_else ct "text/plain;charset=utf-8"),
         "truthsig-report-" ++ caseId ++ ".txt")).

(** [generateReport] of the earlier revision of the case page: the
    case-level report. [busy0] is the [busy] flag on entry and [fetched] the
    outcome of [apiFetch]. *)
Definition generateReport (busy0 : bool) (caseId : string)
  (fetched : Exc Fetch.Response) : Outcome :=
  if Str.is_empty caseId then failed busy0 "Missing case id in URL."
  else
    try_catch (res <-! fetched ;; generateReport_body caseId res)
      "Report failed".

(** [generateEvidenceReport] of the current case page: the per-evidence
    report. [selectedEvidenceId] is [None] for [null]. *)
Definition generateEvidenceReport (busy0 : bool) (caseId : string)
  (selectedEvidenceId : option string) (fetched : Exc Fetch.Response)
  : Outcome :=
  match selectedEvidenceId with
  | None => failed busy0 "Select evidence before creating a report."
  | Some evidenceId =>
      if Str.is_empty caseId || Str.is_empty evidenceId
      then failed busy0 "Select evidence before creating a report."
      else
        try_catch
          (res <-! fetched ;;
           _ <-! require_ok res "Report generation failed" ;;
           b <-! Fetch.blob res ;;
           Ok (None,
               (ResponseBlob b, "truthsig-evidence-" ++ evidenceId ++ ".pdf")))
          "Report failed"
  end.

(** Whether a handler's outcome offers a file named [*.pdf]. *)
Definition saved_as_pdf (o : Outcome) : bool :=
  match download o with
  | Some (_, name) => Str.endsWith ".pdf" name
  | None => false
  end.

End CasePage.

(** ** The landing page: [prettyBytes] *)

Module HomePage.

(** The page's [AnalysisResult]. The fields are declared as strings, numbers
    and optional sections, but they are filled from the parsed response
    without any check, so each one holds an arbitrary value at run time. *)
Record AnalysisResult : Type := {
  filename : Js.value;
  media_type : Js.value;
  sha256 : Js.value;
  bytes : Js.value;
  provenance_state : Js.value;
  summary : Js.value;
  ai_disclosure : Js.value;
  transformations : Js.value;
  findings : Js.value;
  c2pa : Js.value;
  metadata : Js.value;
  ffprobe : Js.value
}.

(** The selected [File]. *)
Record File : Type := {
  name : string;
  size : float
}.

Record Badge : Type := {
  label : Js.value;
  cls : string
}.

Definition em_dash : string := "—".

(** The [stateBadge] memo. *)
Definition stateBadge (result : option AnalysisResult) : Badge :=
  let s :=
    Js.or_else (match result with
                | Some r => provenance_state r
                | None => Js.Undefined
                end) (Js.Str "") in
  if Js.is_str s "VERIFIED_ORIGINAL" then
    {| label := Js.Str "Verified (C2PA)";
       cls := "border-emerald-200 bg-emerald-50 text-emerald-800" |}
  else if Js.is_str s "ALTERED_OR_BROKEN_PROVENANCE" then
    {| label := Js.Str "Altered / Broken provenance";
       cls := "border-amber-200 bg-amber-50 text-amber-900" |}
  else if Js.is_str s "UNVERIFIABLE_NO_PROVENANCE" then
    {| label := Js.Str "No provenance (unverifiable)";
       cls := "border-slate-200 bg-slate-100 text-slate-800" |}
  else
    {| label := Js.or_else s (Js.Str em_dash);
       cls := "border-slate-200 bg-slate-100 text-slate-800" |}.

Notation "a ?? b" := (Js.coalesce a b) (at level 72, left associativity).

(** [raw.k]. *)
Definition dot (raw : Js.value) (k : string) : Exc Js.value := Js.get raw k.

(** [raw.k1?.k2]. *)
Definition dot2 (raw : Js.value) (k1 k2 : string) : Exc Js.value :=
  inner <-! Js.get raw k1 ;; Js.opt_get inner k2.

(** The mapping "backend response -> UI contract" of [quickScan]. *)
Definition mapResponse (raw : Js.value) (file : File) : Exc AnalysisResult :=
  v_filename <-! (dot raw "filename" ?? Ok (Js.Str (name file))) ;;
  v_media_type <-! (dot raw "media_type" ?? dot raw "mime_type"
                    ?? Ok (Js.Str "")) ;;
  v_sha256 <-! (dot raw "sha256" ?? Ok (Js.Str "")) ;;
  v_bytes <-! (dot raw "bytes" ?? dot raw "size" ?? Ok (Js.Num (size file))) ;;
  v_state <-! (dot raw "provenance_state" ?? dot2 raw "provenance" "state"
               ?? Ok (Js.Str "")) ;;
  v_summary <-! (dot raw "summary" ?? dot2 raw "provenance" "summary"
                 ?? dot raw "one_line_rationale" ?? Ok (Js.Str "")) ;;
  v_ai <-! (dot raw "ai_disclosure" ?? dot2 raw "provenance" "ai_disclosure"
            ?? dot raw "ai" ?? Ok Js.Undefined) ;;
  v_transformations <-! (dot raw "transformations"
                         ?? dot2 raw "provenance" "transformations"
                         ?? Ok Js.Undefined) ;;
  v_findings <-! (dot raw "findings" ?? dot2 raw "provenance" "findings"
                  ?? dot raw "flags" ?? Ok Js.Undefined) ;;
  v_c2pa <-! (dot raw "c2pa" ?? dot raw "c2pa_summary"
              ?? dot2 raw "provenance" "c2pa"
              ?? dot2 raw "provenance" "c2pa_summary" ?? Ok Js.Undefined) ;;
  v_metadata <-! (dot raw "metadata" ?? dot2 raw "provenance" "metadata"
                  ?? Ok Js.Undefined) ;;
  v_ffprobe <-! (dot raw "ffprobe" ?? dot2 raw "media" "ffprobe"
                 ?? dot2 raw "provenance" "ffprobe" ?? Ok Js.Undefined) ;;
  Ok {| filename := v_filename;
        media_type := v_media_type;
        sha256 := v_sha256;
        bytes := v_bytes;
        provenance_state := v_state;
        summary := v_summary;
        ai_disclosure := v_ai;
        transformations := v_transformations;
        findings := v_findings;
        c2pa := v_c2pa;
        metadata := v_metadata;
        ffprobe := v_ffprobe |}.

(** The page state [quickScan] writes. *)
Record ScanState : Type := {
  scan_busy : bool;
  scan_err : option string;
  scan_result : option AnalysisResult
}.

(** [quickScan]: [file] is the selected file ([None] for [null]) and
    [fetched] the outcome of [apiFetch("/analyze", ...)]. *)
Definition quickScan (st : ScanState) (file : option File)
  (fetched : Exc Fetch.Response) : ScanState :=
  match file with
  | None => st
  | Some f =>
      let body :=
        res <-! fetched ;;
        _ <-! (if Fetch.ok res then Ok tt
               else Throw (Str.or_else (Fetch.catch (Fetch.text res) "")
                             "Analyze failed")) ;;
        raw <-! Fetch.json res ;;
        mapResponse raw f in
      match body with
      | Ok data =>
          {| scan_busy := false; scan_err := None; scan_result := Some data |}
      | Throw m =>
          {| scan_busy := false;
             scan_err := Some (Str.or_else m "Failed");
             scan_result := None |}
      end
  end.

(** *** The mapping as the interface describes it

    Each field is taken from the first present (neither [null] nor
    [undefined]) of its alternative keys, flat or nested. *)

Fixpoint first_present (alternatives : list Js.value) (default : Js.value)
  : Js.value :=
  match alternatives with
  | [] => default
  | v :: rest => if Js.is_nullish v then first_present rest default else v
  end.

(** The field [k] of a response object; absent fields, and fields of
    anything that is not an object, are [undefined]. *)
Definition field (raw : Js.value) (k : string) : Js.value :=
  match raw with
  | Js.Obj fields => Js.lookup_field k fields
  | _ => Js.Undefined
  end.

Definition nested (raw : Js.value) (k1 k2 : string) : Js.value :=
  field (field raw k1) k2.

Definition first_present_mapping (raw : Js.value) (file : File)
  : AnalysisResult :=
  {| filename := first_present [field raw "filename"] (Js.Str (name file));
     media_type :=
       first_present [field raw "media_type"; field raw "mime_type"]
         (Js.Str "");
     sha256 := first_present [field raw "sha256"] (Js.Str "");
     bytes :=
       first_present [field raw "bytes"; field raw "size"]
         (Js.Num (size file));
     provenance_state :=
       first_present
         [field raw "provenance_state"; nested raw "provenance" "state"]
         (Js.Str "");
     summary :=
       first_present
         [field raw "summary"; nested raw "provenance" "summary";
          field raw "one_line_rationale"]
         (Js.Str "");
     ai_disclosure :=
       first_present
         [field raw "ai_disclosure"; nested raw "provenance" "ai_disclosure";
          field raw "ai"]
         Js.Undefined;
     transformations :=
       first_present
         [field raw "transformations";
          nested raw "provenance" "transformations"]
         Js.Undefined;
     findings :=
       first_present
         [field raw "findings"; nested raw "provenance" "findings";
          field raw "flags"]
         Js.Undefined;
     c2pa :=
       first_present
         [field raw "c2pa"; field raw "c2pa_summary";
          nested raw "provenance" "c2pa";
          nested raw "provenance" "c2pa_summary"]
         Js.Undefined;
     metadata :=
       first_present
         [field raw "metadata"; nested raw "provenance" "metadata"]
         Js.Undefined;
     ffprobe :=
       first_present
         [field raw "ffprobe"; nested raw "media" "ffprobe";
          nested raw "provenance" "ffprobe"]
         Js.Undefined |}.

(** Modelled from the spec: the closed enumeration of provenance states of
    the service interface, whose declaration is not part of the client
    sources (the client types the field as [string]). *)
Inductive ProvenanceState : Type :=
| VERIFIED_ORIGINAL
| ALTERED_OR_BROKEN_PROVENANCE
| UNVERIFIABLE_NO_PROVENANCE.

Definition all_states : list ProvenanceState :=
  [VERIFIED_ORIGINAL; ALTERED_OR_BROKEN_PROVENANCE; UNVERIFIABLE_NO_PROVENANCE].

Definition wire_name (st : ProvenanceState) : string :=
  match st with
  | VERIFIED_ORIGINAL => "VERIFIED_ORIGINAL"
  | ALTERED_OR_BROKEN_PROVENANCE => "ALTERED_OR_BROKEN_PROVENANCE"
  | UNVERIFIABLE_NO_PROVENANCE => "UNVERIFIABLE_NO_PROVENANCE"
  end.

Definition generic_cls : string :=
  "border-slate-200 bg-slate-100 text-slate-800".

Definition units : list string := ["B"; "KB"; "MB"; "GB"].

Definition div1024 (x : float) : float := (x / 1024)%float.

(** [while (x >= 1024 && i < units.length - 1) { x = x / 1024; i++; }]
    One unit of fuel is spent per iteration of the loop body. *)
Fixpoint prettyBytes_loop (fuel : nat) (x : float) (i : nat)
  : option (float * nat) :=
  if (1024 <=? x)%float && (i <? length units - 1)%nat then
    match fuel with
    | O => None
    | S fuel' => prettyBytes_loop fuel' (div1024 x) (S i)
    end
  else Some (x, i).

(** [units[i]] inside a template literal. *)
Definition unit_at (i : nat) : string :=
  match nth_error units i with
  | Some u => u
  | None => "undefined"
  end.

Section WithToFixed.

(** [Number.prototype.toFixed], the number formatter of the runtime. *)
Variable toFixed : float -> nat -> string.

Definition prettyBytes (fuel : nat) (n : float) : option string :=
  if negb (Js.num_truthy n) && negb (PrimFloat.eqb n 0%float) then Some ""
  else
    match prettyBytes_loop fuel n 0 with
    | None => None
    | Some (x, i) =>
        Some (toFixed x (if (i =? 0)%nat then 0 else 1) ++ " " ++ unit_at i)
    end.

End WithToFixed.

(** *** [prettyBytes] on what the page hands it

    The page calls [prettyBytes(result.bytes)], and [result.bytes] is
    whatever the response carried. The conversion of strings, arrays and
    objects to numbers ([ToNumber] after [ToPrimitive]) is the runtime's and
    is a parameter, like [toFixed]. *)

Definition to_number (convert : Js.value -> Exc float) (v : Js.value)
  : Exc float :=
  match v with
  | Js.Num x => Ok x
  | Js.Bool b => Ok (if b then 1%float else 0%float)
  | Js.Null => Ok 0%float
  | Js.Undefined => Ok nan
  | _ => convert v
  end.

(** [v !== 0]. *)
Definition strict_ne_zero (v : Js.value) : bool :=
  match v with
  | Js.Num x => negb (PrimFloat.eqb x 0%float)
  | _ => true
  end.

Definition no_toFixed : string := "TypeError: x.toFixed is not a function".

Section OnValues.

Variable toFixed : float -> nat -> string.
Variable convert : Js.value -> Exc float.

(** The loop of [prettyBytes] with [x] a value: [x >= 1024] converts [x]
    to a number, and [x / 1024] leaves a number in [x]. *)
Fixpoint prettyBytes_value_loop (fuel : nat) (x : Js.value) (i : nat)
  : Exc (option (Js.value * nat)) :=
  nx <-! to_number convert x ;;
  if (1024 <=? nx)%float && (i <? length units - 1)%nat then
    match fuel with
    | O => Ok None
    | S fuel' => prettyBytes_value_loop fuel' (Js.Num (div1024 nx)) (S i)
    end
  else Ok (Some (x, i)).

(** [prettyBytes] applied to an arbitrary value: only a number has
    [toFixed]. *)
Definition prettyBytes_value (fuel : nat) (n : Js.value) : Exc (option string) :=
  if negb (Js.truthy n) && strict_ne_zero n then Ok (Some "")
  else
    r <-! prettyBytes_value_loop fuel n 0 ;;
    match r with
    | None => Ok None
    | Some (Js.Num x, i) =>
        Ok (Some (toFixed x (if (i =? 0)%nat then 0 else 1) ++ " " ++ unit_at i))
    | Some (_, _) => Throw no_toFixed
    end.

End OnValues.

(** The badge of each provenance state, as the page draws it. *)
Definition badge_of (st : ProvenanceState) : Badge :=
  match st with
  | VERIFIED_ORIGINAL =>
      {| label := Js.Str "Verified (C2PA)";
         cls := "border-emerald-200 bg-emerald-50 text-emerald-800" |}
  | ALTERED_OR_BROKEN_PROVENANCE =>
      {| label := Js.Str "Altered / Broken provenance";
         cls := "border-amber-200 bg-amber-50 text-amber-900" |}
  | UNVERIFIABLE_NO_PROVENANCE =>
      {| label := Js.Str "No provenance (unverifiable)";
         cls := generic_cls |}
  end.

End HomePage.

(** * The integrity engine

    The engine (content store, manifest verifier, forensic pipeline, trust
    scoring, custody ledger) is served by the backend, whose sources are not
    part of the tree; the client only calls it. The custody ledger, the
    aggregation step of the video analyzer, the content store and the
    manifest verifier are modelled from the design. Hash functions,
    container parsing and signature checks are parameters of the model. *)

Definition bits : Type := list bool.

(** Digests are bit strings. *)
Definition digest : Type := bits.

(** Modelled from the spec: the error taxonomy of the engine. *)
Inductive ErrorClass : Type :=
| InputError
| IntegrityError
| AnalysisTimeout
| AnalysisFailure
| NotFound.

Module Ledger.

(** Modelled from the spec: a custody event. Beside the listed fields
    ([id], [case_id], [event_type], [actor], [created_at], [payload_hash],
    [prev_event_hash]) the record holds the application payload that
    [payload_hash] covers and the stored combined hash of the event. *)
Record CustodyEvent : Type := {
  id : nat;
  case_id : nat;
  event_type : string;
  actor : string;
  created_at : Z;
  payload : bits;
  payload_hash : digest;
  prev_event_hash : digest;
  combined_hash : digest
}.

(** The fixed zero-value predecessor of a genesis event. *)
Definition genesis : digest := repeat false 256.

(** The outcome of a verification walk. *)
Inductive WalkResult : Type :=
| ChainVerified
| ChainIntegrityViolation (event_id : nat).

Definition error_class (r : WalkResult) : option ErrorClass :=
  match r with
  | ChainVerified => None
  | ChainIntegrityViolation _ => Some IntegrityError
  end.

(** Flipping bit [j] of a stored payload, leaving every other field of the
    event (hashes included) as it was. *)
Definition tamper (j : nat) (e : CustodyEvent) : CustodyEvent :=
  {| id := id e;
     case_id := case_id e;
     event_type := event_type e;
     actor := actor e;
     created_at := created_at e;
     payload := alter negb j (payload e);
     payload_hash := payload_hash e;
     prev_event_hash := prev_event_hash e;
     combined_hash := combined_hash e |}.

Section Hashing.

(** [H(event_type, actor, created_at, application payload)]. *)
Variable H_payload : string -> string -> Z -> bits -> digest.

(** [H(payload_hash, prev_event_hash)]. *)
Variable H_link : digest -> digest -> digest.

(** The combined hash of the latest event, or the sentinel. *)
Definition head (chain : list CustodyEvent) : digest :=
  match last chain with
  | Some e => combined_hash e
  | None => genesis
  end.

(** Modelled from the spec: the append operation of the custody ledger
    (the ledger is backend code, absent from the tree). An append computes
    the payload hash, links the event to the combined hash of its
    predecessor and stores the combined hash of the new event. *)
Definition append (chain : list CustodyEvent) (case : nat)
  (type who : string) (now : Z) (data : bits) : list CustodyEvent :=
  let ph := H_payload type who now data in
  (chain ++
   [{| id := length chain;
       case_id := case;
       event_type := type;
       actor := who;
       created_at := now;
       payload := data;
       payload_hash := ph;
       prev_event_hash := head chain;
       combined_hash := H_link ph (head chain) |}])%list.

(** The ledger of a case after the given entries have been appended, in
    order, to the empty ledger. *)
Definition replay (case : nat) (entries : list (string * string * Z * bits))
  : list CustodyEvent :=
  fold_left
    (fun chain '(type, who, now, data) => append chain case type who now data)
    entries [].

(** The combined hash of [e] recomputed from its content and from the
    combined hash [prev] of its predecessor. *)
Definition recompute (prev : digest) (e : CustodyEvent) : digest :=
  H_link (H_payload (event_type e) (actor e) (created_at e) (payload e)) prev.

(** Modelled from the spec: the verification walk of the custody ledger
    (backend code, absent from the tree). The walk recomputes each combined
    hash in order and compares it with the stored one; the first mismatch
    ends the walk and reports the event. The payload hash is recomputed from
    the stored payload, which is what lets the walk see a payload edited in
    place. *)
Fixpoint walk (prev : digest) (events : list CustodyEvent) : WalkResult :=
  match events with
  | [] => ChainVerified
  | e :: rest =>
      if decide (recompute prev e = combined_hash e)
      then walk (combined_hash e) rest
      else ChainIntegrityViolation (id e)
  end.

Definition verify (chain : list CustodyEvent) : WalkResult :=
  walk genesis chain.

End Hashing.

End Ledger.

Module Video.

(** Modelled from the spec: the outcome of the image analyzer on one
    sampled frame. [frame_index] is the position of the frame among the
    sampled frames; the anomaly score is kept on an integer scale. *)
Record FrameResult : Type := {
  frame_index : nat;
  anomaly : Z
}.

(** The configuration of the video analyzer: the absolute threshold, the
    largest tolerated distance from the rolling baseline, the radius of the
    window of neighbouring sampled frames and the maximum reported count. *)
Record Config : Type := {
  threshold : Z;
  deviation_limit : Z;
  window : nat;
  max_flagged : nat
}.

(** The per-frame analyses of a video whose sampled frames have the given
    scores, in sampling order. *)
Fixpoint results_from (p : nat) (scores : list Z) : list FrameResult :=
  match scores with
  | [] => []
  | s :: rest => {| frame_index := p; anomaly := s |} :: results_from (S p) rest
  end.

Definition frame_results (scores : list Z) : list FrameResult :=
  results_from 0 scores.

Definition by_index (a b : FrameResult) : Prop :=
  frame_index a <= frame_index b.

#[global] Instance by_index_dec : RelDecision by_index :=
  fun a b => decide (frame_index a <= frame_index b).

(** The results collected from the workers, in whatever order they
    completed, put in ascending index order. *)
Definition ordered (completed : list FrameResult) : list FrameResult :=
  merge_sort by_index completed.

(** The sampled frames within [window] positions of position [p], the
    frame at [p] itself left out. *)
Definition neighbours (w p : nat) (frames : list FrameResult)
  : list FrameResult :=
  (drop (p - w) (take p frames) ++ take w (drop (S p) frames))%list.

Definition total_anomaly (frames : list FrameResult) : Z :=
  fold_right (fun fr acc => (anomaly fr + acc)%Z) 0%Z frames.

(** Discontinuity: the score is further than [deviation_limit] from the
    mean score of the neighbours (compared after multiplying through by the
    number of neighbours). *)
Definition deviates (cfg : Config) (frames : list FrameResult) (p : nat)
  (fr : FrameResult) : bool :=
  let ns := neighbours (window cfg) p frames in
  let n := Z.of_nat (length ns) in
  (0 <? n)%Z
  && (deviation_limit cfg * n <? Z.abs (anomaly fr * n - total_anomaly ns))%Z.

(** A frame is flagged when its score exceeds the absolute threshold or
    deviates sharply from the rolling baseline. *)
Definition flagged_at (cfg : Config) (frames : list FrameResult) (p : nat)
  (fr : FrameResult) : bool :=
  (threshold cfg <? anomaly fr)%Z || deviates cfg frames p fr.

Fixpoint flag_from (cfg : Config) (frames : list FrameResult) (p : nat)
  (rest : list FrameResult) : list FrameResult :=
  match rest with
  | [] => []
  | fr :: tl =>
      if flagged_at cfg frames p fr
      then fr :: flag_from cfg frames (S p) tl
      else flag_from cfg frames (S p) tl
  end.

(** Modelled from the spec: the aggregation step of the video analyzer
    (the forensic pipeline is backend code, absent from the tree).
    [completed] lists the per-frame results in completion order; they are
    put in index order, flagged, and cut at the maximum reported count. *)
Definition analyze (cfg : Config) (completed : list FrameResult)
  : list FrameResult :=
  let frames := ordered completed in
  take (max_flagged cfg) (flag_from cfg frames 0 frames).

Definition flagged_frames (cfg : Config) (completed : list FrameResult)
  : list nat :=
  map frame_index (analyze cfg completed).

End Video.

Module Store.

Inductive MediaKind : Type :=
| ImageKind
| VideoKind.

Inductive AnalysisStatus : Type :=
| PENDING
| RUNNING
| DONE
| FAILED.

(** Modelled from the spec: one uploaded media item. The current
    provenance state and trust score are absent until an analysis run has
    completed. *)
Record Evidence : Type := {
  evidence_id : nat;
  evidence_case : nat;
  filename : string;
  content_digest : digest;
  media_kind : MediaKind;
  analysis_status : AnalysisStatus
}.

(** The persisted state: the evidence table, the content-addressed blob
    store, the custody ledger of each case and the queue of analysis jobs
    (keyed by evidence id). *)
Record State : Type := {
  evidences : list Evidence;
  blobs : gmap digest bits;
  ledgers : gmap nat (list Ledger.CustodyEvent);
  queue : list nat
}.

Inductive UploadError : Type :=
| UnsupportedMediaKind.

Definition error_class (e : UploadError) : ErrorClass :=
  match e with
  | UnsupportedMediaKind => InputError
  end.

Definition ledger_of (s : State) (case : nat) : list Ledger.CustodyEvent :=
  default [] (ledgers s !! case).

Definition matches (case : nat) (d : digest) (e : Evidence) : bool :=
  (evidence_case e =? case)%nat && bool_decide (content_digest e = d).

(** The evidence of [case] whose content has digest [d], if any. *)
Definition find_evidence (s : State) (case : nat) (d : digest)
  : option Evidence :=
  List.find (matches case d) (evidences s).

Section Upload.

(** The cryptographic digest of a content. *)
Variable digest_of : bits -> digest.

(** Media-kind sniffing from the content (magic bytes, container
    structure); [None] when no supported container is recognised. *)
Variable sniff : bits -> option MediaKind.

Variable H_payload : string -> string -> Z -> bits -> digest.
Variable H_link : digest -> digest -> digest.

Definition record_event (s : State) (case : nat) (type who : string)
  (now : Z) (data : bits) : State :=
  {| evidences := evidences s;
     blobs := blobs s;
     ledgers :=
       <[case := Ledger.append H_payload H_link (ledger_of s case)
                   case type who now data]> (ledgers s);
     queue := queue s |}.

(** Modelled from the spec: evidence submission of the content store
    (backend code, absent from the tree; the case page only posts the file
    to it). The digest is computed,
    the media kind is sniffed (an unrecognised container is refused); when
    the digest is already known for the case the existing record is answered
    and a "duplicate-detected" custody event is recorded; otherwise the blob
    is persisted, a PENDING record is created and one analysis job is
    enqueued. *)
Definition upload (s : State) (who : string) (now : Z) (case : nat)
  (name : string) (content : bits) : UploadError + Evidence * State :=
  let d := digest_of content in
  match sniff content with
  | None => inl UnsupportedMediaKind
  | Some kind =>
      match find_evidence s case d with
      | Some existing =>
          inr (existing, record_event s case "duplicate-detected" who now d)
      | None =>
          let ev :=
            {| evidence_id := length (evidences s);
               evidence_case := case;
               filename := name;
               content_digest := d;
               media_kind := kind;
               analysis_status := PENDING |} in
          inr (ev,
               {| evidences := (evidences s ++ [ev])%list;
                  blobs :=
                    match blobs s !! d with
                    | Some _ => blobs s
                    | None => <[d := content]> (blobs s)
                    end;
                  ledgers := ledgers s;
                  queue := (queue s ++ [evidence_id ev])%list |})
      end
  end.

End Upload.

End Store.

Module Manifest.

(** Reason codes of a broken manifest. *)
Inductive BrokenReason : Type :=
| MALFORMED_STRUCTURE
| TRUNCATED_MANIFEST
| SIGNATURE_INVALID
| HASH_MISMATCH.

(** Modelled from the spec: the result of manifest verification. *)
Record ManifestResult : Type := {
  present : bool;
  verified : bool;
  assertions : list string;
  broken_reason : option BrokenReason
}.

(** A parsed manifest: its assertions and the byte ranges it claims to
    cover, each as (offset, length, hash). The signature and the
    certificate chain stay inside the segment and are judged by the
    signature check. *)
Record Parsed : Type := {
  claimed_assertions : list string;
  covered_ranges : list (nat * nat * digest)
}.

(** What parsing a located segment yields: a manifest, a manifest of which
    only a part could be read, or nothing readable. *)
Inductive ParseOutcome : Type :=
| Complete (m : Parsed)
| Partial (recovered : Parsed) (code : BrokenReason)
| Malformed (code : BrokenReason).

Definition absent : ManifestResult :=
  {| present := false; verified := false; assertions := [];
     broken_reason := None |}.

Definition broken (code : BrokenReason) : ManifestResult :=
  {| present := true; verified := false; assertions := [];
     broken_reason := Some code |}.

Section Verifier.

(** The container-specific search for the manifest segment of a blob. *)
Variable locate : bits -> option bits.

Variable parse : bits -> ParseOutcome.

(** The signature-chain check of a segment against the trusted roots. *)
Variable signature_valid : list digest -> bits -> bool.

Variable hash : bits -> digest.

Definition range_matches (blob : bits) (r : nat * nat * digest) : bool :=
  let '(offset, len, claimed) := r in
  bool_decide (hash (take len (drop offset blob)) = claimed).

(** Modelled from the spec: the manifest verifier (backend code, absent
    from the tree). A blob without a manifest segment gives the absent
    result; a segment that is malformed or only partly parseable, whose
    signature chain does not verify against the trusted roots, or whose
    covered ranges do not hash to the claimed values, gives a broken result
    with its reason code. The trusted roots are an argument. *)
Definition verify (trusted_roots : list digest) (blob : bits)
  : ManifestResult :=
  match locate blob with
  | None => absent
  | Some segment =>
      match parse segment with
      | Malformed code => broken code
      | Partial _ code => broken code
      | Complete m =>
          if negb (signature_valid trusted_roots segment)
          then broken SIGNATURE_INVALID
          else if negb (forallb (range_matches blob) (covered_ranges m))
          then broken HASH_MISMATCH
          else {| present := true; verified := true;
                  assertions := claimed_assertions m;
                  broken_reason := None |}
      end
  end.

End Verifier.

End Manifest.

(** * The state of the case page

    The records follow the page's type declarations; the responses of the
    listing endpoints are taken at those types, as the page does with its
    [as] casts. [None] stands for [null]. *)

Module CaseState.

Record Case : Type := {
  case_key : string;
  title : string;
  description : option string;
  status : option string;
  case_created_at : option string
}.

Record Evidence : Type := {
  id : string;
  case_id : string;
  filename : string;
  sha256 : string;
  created_at : option string;
  summary : option string;
  provenance_state : option string;
  analysis_json : Js.value
}.

Record Event : Type := {
  event_id : string;
  event_case_id : string;
  event_type : string;
  actor : option string;
  event_created_at : option string
}.

(** The [useState] cells of the page. *)
Record Page : Type := {
  caze : option Case;
  evidence : list Evidence;
  events : list Event;
  file : option HomePage.File;
  selectedEvidenceId : option string;
  busy : bool;
  err : option string
}.

(** [!selectedEvidenceId]. *)
Definition no_selection (sel : option string) : bool :=
  match sel with
  | Some s => Str.is_empty s
  | None => true
  end.

(** [evidence.find((item) => item.id === selectedEvidenceId)]. *)
Definition find_selected (sel : option string) (items : list Evidence)
  : option Evidence :=
  match sel with
  | Some s => List.find (fun item => String.eqb (id item) s) items
  | None => None
  end.

(** The effect that keeps a selection:
    [if (!evidence.length) return;
     if (!selectedEvidenceId || !evidence.find(...))
       setSelectedEvidenceId(evidence[0].id);] *)
Definition selectionEffect (st : Page) : Page :=
  match evidence st with
  | [] => st
  | first :: _ =>
      if no_selection (selectedEvidenceId st)
         || match find_selected (selectedEvidenceId st) (evidence st) with
            | Some _ => false
            | None => true
            end
      then
        {| caze := caze st;
           evidence := evidence st;
           events := events st;
           file := file st;
           selectedEvidenceId := Some (id first);
           busy := busy st;
           err := err st |}
      else st
  end.

(** The [selectedEvidence] memo:
    [evidence.find((e) => e.id === selectedEvidenceId) || evidence[0] || null]. *)
Definition selectedEvidence (st : Page) : option Evidence :=
  match find_selected (selectedEvidenceId st) (evidence st) with
  | Some e => Some e
  | None => head (evidence st)
  end.

(** What the three listing requests of [refreshAll] answered. *)
Record Listing : Type := {
  case_response : Exc (option Case);
  evidence_response : Exc (option (list Evidence));
  events_response : Exc (option (list Event))
}.

Definition rejection {A : Type} (r : Exc A) : option string :=
  match r with
  | Ok _ => None
  | Throw m => Some m
  end.

(** The rejection [Promise.all] reports: that of the request that failed
    first. [order] lists the requests (0, 1, 2) in the order they
    settled. *)
Fixpoint first_rejection (rejections : list (option string)) (order : list nat)
  : option string :=
  match order with
  | [] => None
  | i :: rest =>
      match nth i rejections None with
      | Some m => Some m
      | None => first_rejection rejections rest
      end
  end.

(** [await Promise.all([apiJson(...), apiJson(...), apiJson(...)])]. *)
Definition all_settled (l : Listing) (order : list nat)
  : Exc (option Case * option (list Evidence) * option (list Event)) :=
  match case_response l, evidence_response l, events_response l with
  | Ok c, Ok ev, Ok logs => Ok (c, ev, logs)
  | _, _, _ =>
      match first_rejection
              [rejection (case_response l); rejection (evidence_response l);
               rejection (events_response l)]
              (order ++ [0; 1; 2])%list with
      | Some m => Throw m
      | None => Throw ""
      end
  end.

(** [refreshAll]. *)
Definition refreshAll (caseId : string) (st : Page) (l : Listing)
  (order : list nat) : Page :=
  if Str.is_empty caseId then st
  else
    match all_settled l order with
    | Ok (c, ev, logs) =>
        {| caze := c;
           evidence := default [] ev;
           events := default [] logs;
           file := file st;
           selectedEvidenceId := selectedEvidenceId st;
           busy := busy st;
           err := None |}
    | Throw m =>
        {| caze := caze st;
           evidence := evidence st;
           events := events st;
           file := file st;
           selectedEvidenceId := selectedEvidenceId st;
           busy := busy st;
           err := Some (Str.or_else m "Failed to load case") |}
    end.

Definition with_error (st : Page) (msg : string) : Page :=
  {| caze := caze st;
     evidence := evidence st;
     events := events st;
     file := file st;
     selectedEvidenceId := selectedEvidenceId st;
     busy := busy st;
     err := Some msg |}.

(** [uploadAndAnalyze]: [fetched] is the outcome of the upload request,
    [l] and [order] those of the refresh that follows a successful
    upload. *)
Definition uploadAndAnalyze (caseId : string) (st : Page)
  (fetched : Exc Fetch.Response) (l : Listing) (order : list nat) : Page :=
  if Str.is_empty caseId then with_error st "Missing case id in URL."
  else
    match file st with
    | None => with_error st "Please select a file first."
    | Some _ =>
        let body :=
          res <-! fetched ;;
          CasePage.require_ok res "Upload failed" in
        match body with
        | Ok _ =>
            let cleared :=
              {| caze := caze st;
                 evidence := evidence st;
                 events := events st;
                 file := None;
                 selectedEvidenceId := selectedEvidenceId st;
                 busy := true;
                 err := None |} in
            let refreshed := refreshAll caseId cleared l order in
            {| caze := caze refreshed;
               evidence := evidence refreshed;
               events := events refreshed;
               file := file refreshed;
               selectedEvidenceId := selectedEvidenceId refreshed;
               busy := false;
               err := err refreshed |}
        | Throw m =>
            {| caze := caze st;
               evidence := evidence st;
               events := events st;
               file := file st;
               selectedEvidenceId := selectedEvidenceId st;
               busy := false;
               err := Some (Str.or_else m "Upload failed") |}
        end
    end.

(** The click on "Create Evidence PDF": the handler runs on the page's
    current selection. *)
Definition createEvidencePdf (caseId : string) (st : Page)
  (fetched : Exc Fetch.Response) : CasePage.Outcome :=
  CasePage.generateEvidenceReport (busy st) caseId (selectedEvidenceId st)
    fetched.

(** [disabled={busy || !selectedEvidence}] on that button. *)
Definition createEvidencePdf_enabled (st : Page) : bool :=
  negb (busy st
        || match selectedEvidence st with
           | Some _ => false
           | None => true
           end).

End CaseState.

(** ** The quick-scan panel of the case page

    What the panel hands to React for the selected evidence. The analysis
    is the [analysis_json] of the evidence, a value of any shape. *)

Module Panel.

(** The truthiness of [v?.length]: arrays and strings have a length, an
    object has one when it carries a [length] field, [null], [undefined],
    numbers and booleans have none. *)
Definition length_truthy (v : Js.value) : bool :=
  match v with
  | Js.Arr items => negb (Nat.eqb (length items) 0)
  | Js.Str s => negb (Str.is_empty s)
  | Js.Obj fields => Js.truthy (Js.lookup_field "length" fields)
  | _ => false
  end.

Fixpoint map_exc {A B : Type} (f : A -> Exc B) (l : list A) : Exc (list B) :=
  match l with
  | [] => Ok []
  | a :: rest => b <-! f a ;; bs <-! map_exc f rest ;; Ok (b :: bs)
  end.

Definition not_a_function (method : string) : string :=
  "TypeError: " ++ method ++ " is not a function".

(** [v.slice(0, 3).map(f)] for a [v] with a truthy length: an array gives
    its first three elements mapped; a string has [slice] but its result has
    no [map]; an object of parsed JSON holds no function at all. *)
Definition slice3_map {B : Type} (f : Js.value -> Exc B) (v : Js.value)
  : Exc (list B) :=
  match v with
  | Js.Arr items => map_exc f (take 3 items)
  | Js.Str _ => Throw (not_a_function "map")
  | _ => Throw (not_a_function "slice")
  end.

Record Summary : Type := {
  trust_badge : Js.value;
  rationale : Js.value;
  reasons : list Js.value
}.

(** The panel: the "Latest scan" summary ([None] for the placeholder
    text), whether the ELA heatmap is shown, and the [index] of each
    flagged-frame thumbnail. *)
Record View : Type := {
  summary : option Summary;
  heatmap : bool;
  frames : list Js.value
}.

(** [const analysis = selectedEvidence?.analysis_json;] *)
Definition analysis (st : CaseState.Page) : Js.value :=
  match CaseState.selectedEvidence st with
  | Some e => CaseState.analysis_json e
  | None => Js.Undefined
  end.

(** The three conditional blocks of the panel, in the order the page
    evaluates them. *)
Definition render (st : CaseState.Page) : Exc View :=
  let a := analysis st in
  shown <-! (if Js.truthy a then
               score <-! Js.get a "trust_score" ;;
               why <-! Js.get a "one_line_rationale" ;;
               top <-! Js.get a "top_reasons" ;;
               listed <-! (if length_truthy top then slice3_map Ok top
                           else Ok []) ;;
               Ok (Some {| trust_badge :=
                             Js.nullish_or score (Js.Str HomePage.em_dash);
                           rationale :=
                             Js.or_else why
                               (Js.Str "No rationale available yet.");
                           reasons := listed |})
             else Ok None) ;;
  forensics <-! Js.opt_get a "forensics" ;;
  kind <-! Js.opt_get forensics "type" ;;
  thumbs <-! (if Js.is_str kind "video" then
                results <-! Js.opt_get forensics "results" ;;
                flagged <-! Js.opt_get results "flagged_frames" ;;
                if length_truthy flagged
                then slice3_map (fun frame => Js.get frame "index") flagged
                else Ok []
              else Ok []) ;;
  Ok {| summary := shown;
        heatmap := Js.is_str kind "image";
        frames := thumbs |}.

Definition placeholder : View :=
  {| summary := None; heatmap := false; frames := [] |}.

End Panel.

(** * Sample data

    Concrete inputs and stand-ins for the parameters of the engine, on which
    the statements below are run. *)

Definition toFixed_stub (x : float) (digits : nat) : string :=
  if (digits =? 0)%nat then "<int>" else "<dec>".

Definition result_with_state (s : Js.value) : HomePage.AnalysisResult :=
  {| HomePage.filename := Js.Str "a.jpg";
     HomePage.media_type := Js.Str "image/jpeg";
     HomePage.sha256 := Js.Str "";
     HomePage.bytes := Js.Num 1%float;
     HomePage.provenance_state := s;
     HomePage.summary := Js.Str "";
     HomePage.ai_disclosure := Js.Undefined;
     HomePage.transformations := Js.Undefined;
     HomePage.findings := Js.Undefined;
     HomePage.c2pa := Js.Undefined;
     HomePage.metadata := Js.Undefined;
     HomePage.ffprobe := Js.Undefined |}.

Definition sample_file : HomePage.File :=
  {| HomePage.name := "clip.mp4"; HomePage.size := 2048%float |}.

(** A response that nests the state and the summary under [provenance]
    and carries a number where the page expects the findings array. *)
Definition nested_response : Js.value :=
  Js.Obj [("sha256", Js.Str "ab12");
          ("provenance_state", Js.Null);
          ("provenance",
           Js.Obj [("state", Js.Num 7%float); ("summary", Js.Str "nested")]);
          ("flags", Js.Num 3%float)].

Definition nested_http_response : Fetch.Response :=
  {| Fetch.ok := true;
     Fetch.content_type := Some "application/json";
     Fetch.blob := Ok "";
     Fetch.text := Ok "";
     Fetch.json := Ok nested_response |}.

Definition idle_scan : HomePage.ScanState :=
  {| HomePage.scan_busy := false;
     HomePage.scan_err := None;
     HomePage.scan_result := None |}.

Definition dquote : string := String (ascii_of_nat 34) EmptyString.

(** The structured fallback of the report endpoint: a JSON body that
    carries the rendered text under [markdown]. *)
Definition markdown_body : string :=
  "{" ++ dquote ++ "markdown" ++ dquote ++ ":" ++ dquote ++ "# Report"
  ++ dquote ++ "}".

Definition markdown_fallback : Fetch.Response :=
  {| Fetch.ok := true;
     Fetch.content_type := Some "application/json";
     Fetch.blob := Ok markdown_body;
     Fetch.text := Ok markdown_body;
     Fetch.json := Ok (Js.Obj [("markdown", Js.Str "# Report")]) |}.

(** A pair of collision-free functions to run the ledger on: the payload
    hash keeps the payload behind a header, the link hash concatenates. *)
Definition toy_payload_hash (type who : string) (now : Z) (p : bits) : digest :=
  (repeat true (String.length type + String.length who) ++ false :: p)%list.

Definition toy_link (h prev : digest) : digest := (h ++ prev)%list.

Definition sample_chain : list Ledger.CustodyEvent :=
  Ledger.append toy_payload_hash toy_link
    (Ledger.append toy_payload_hash toy_link []
       1 "evidence-uploaded" "alice" 100%Z [true; false; true])
    1 "analysis-completed" "worker" 160%Z [false; false; true; true].

Definition sample_first_event : Ledger.CustodyEvent :=
  {| Ledger.id := 0;
     Ledger.case_id := 1;
     Ledger.event_type := "evidence-uploaded";
     Ledger.actor := "alice";
     Ledger.created_at := 100%Z;
     Ledger.payload := [true; false; true];
     Ledger.payload_hash :=
       toy_payload_hash "evidence-uploaded" "alice" 100%Z [true; false; true];
     Ledger.prev_event_hash := Ledger.genesis;
     Ledger.combined_hash :=
       toy_link
         (toy_payload_hash "evidence-uploaded" "alice" 100%Z
            [true; false; true])
         Ledger.genesis |}.

Definition scenario_c_flagged (i : nat) : bool :=
  existsb (Nat.eqb i) [7; 14; 22].

Definition scenario_c_config : Video.Config :=
  {| Video.threshold := 50;
     Video.deviation_limit := 100;
     Video.window := 2;
     Video.max_flagged := 5 |}.

Definition scenario_c_scores : list Z :=
  map (fun i => if scenario_c_flagged i then 90%Z else 10%Z) (seq 0 30).

(** The configuration of the sample video with a maximum reported count of
    two. *)
Definition scenario_c_capped : Video.Config :=
  {| Video.threshold := 50;
     Video.deviation_limit := 100;
     Video.window := 2;
     Video.max_flagged := 2 |}.

(** The configuration of the sample video with a deviation limit of 10 and
    room for every sampled frame in the list. *)
Definition scenario_c_jumpy : Video.Config :=
  {| Video.threshold := 50;
     Video.deviation_limit := 10;
     Video.window := 2;
     Video.max_flagged := 30 |}.

(** What a duplicate upload leaves behind: the evidence table, the blob
    store and the job queue as they were, and one more event,
    "duplicate-detected", on the ledger of the case. *)
Definition duplicate_recorded (s s' : Store.State) (case : nat) : Prop :=
  Store.evidences s' = Store.evidences s
  /\ Store.blobs s' = Store.blobs s
  /\ Store.queue s' = Store.queue s
  /\ exists ev,
      Store.ledger_of s' case = (Store.ledger_of s case ++ [ev])%list
      /\ Ledger.event_type ev = "duplicate-detected".

(** A store to run the upload on: contents starting with a set bit are
    images, contents starting with two clear bits are videos, anything else
    is refused; the digest keeps the content. *)
Definition toy_sniff (content : bits) : option Store.MediaKind :=
  match content with
  | true :: _ => Some Store.ImageKind
  | false :: false :: _ => Some Store.VideoKind
  | _ => None
  end.

Definition toy_digest (content : bits) : digest := content.

Definition empty_store : Store.State :=
  {| Store.evidences := [];
     Store.blobs := ∅;
     Store.ledgers := ∅;
     Store.queue := [] |}.

Definition sample_content : bits := [true; false; true; true].

Definition sample_evidence : Store.Evidence :=
  {| Store.evidence_id := 0;
     Store.evidence_case := 4;
     Store.filename := "photo.jpg";
     Store.content_digest := sample_content;
     Store.media_kind := Store.ImageKind;
     Store.analysis_status := Store.PENDING |}.

Definition store_after_upload : Store.State :=
  {| Store.evidences := [sample_evidence];
     Store.blobs := {[ sample_content := sample_content ]};
     Store.ledgers := ∅;
     Store.queue := [0] |}.

(** A container to run the verifier on: the manifest segment is whatever
    follows the first set bit; a segment of fewer than two bits is
    malformed, one of odd length is cut short, any other parses. *)
Fixpoint toy_locate (blob : bits) : option bits :=
  match blob with
  | [] => None
  | true :: segment => Some segment
  | false :: rest => toy_locate rest
  end.

Definition toy_parse (segment : bits) : Manifest.ParseOutcome :=
  let m := {| Manifest.claimed_assertions := ["c2pa.created"];
              Manifest.covered_ranges := [] |} in
  if (length segment <? 2)%nat then Manifest.Malformed Manifest.MALFORMED_STRUCTURE
  else if Nat.odd (length segment)
       then Manifest.Partial m Manifest.TRUNCATED_MANIFEST
       else Manifest.Complete m.

Definition toy_signature_valid (roots : list digest) (segment : bits) : bool :=
  bool_decide (segment ∈ roots).

Definition truncated_blob : bits := [false; true; true; false; true].

Definition nested_verified_response : Fetch.Response :=
  {| Fetch.ok := true;
     Fetch.content_type := Some "application/json";
     Fetch.blob := Ok "";
     Fetch.text := Ok "";
     Fetch.json :=
       Ok (Js.Obj [("provenance",
                    Js.Obj [("state", Js.Str "VERIFIED_ORIGINAL")])]) |}.

Definition convert_stub (v : Js.value) : Exc float :=
  match v with
  | Js.Str "4096" => Ok 4096%float
  | _ => Ok nan
  end.

Definition html_error_page : Fetch.Response :=
  {| Fetch.ok := true;
     Fetch.content_type := Some "text/html";
     Fetch.blob := Ok markdown_body;
     Fetch.text := Ok markdown_body;
     Fetch.json := Throw "Unexpected token" |}.

Definition sample_item (key : string) : CaseState.Evidence :=
  {| CaseState.id := key;
     CaseState.case_id := "case-1";
     CaseState.filename := "clip.mp4";
     CaseState.sha256 := "ab12";
     CaseState.created_at := None;
     CaseState.summary := None;
     CaseState.provenance_state := None;
     CaseState.analysis_json := Js.Undefined |}.

(** A page whose list has just been loaded and whose selection effect has
    not run yet. *)
Definition unsettled_page : CaseState.Page :=
  {| CaseState.caze := None;
     CaseState.evidence := [sample_item "ev-1"; sample_item "ev-2"];
     CaseState.events := [];
     CaseState.file := None;
     CaseState.selectedEvidenceId := None;
     CaseState.busy := false;
     CaseState.err := None |}.

Definition all_answered (l : CaseState.Listing) : bool :=
  match CaseState.case_response l, CaseState.evidence_response l,
        CaseState.events_response l with
  | Ok _, Ok _, Ok _ => true
  | _, _, _ => false
  end.

(** Whether the upload request was answered with a successful response. *)
Definition upload_accepted (fetched : Exc Fetch.Response) : bool :=
  match fetched with
  | Ok res => Fetch.ok res
  | Throw _ => false
  end.

Definition page_with_file : CaseState.Page :=
  {| CaseState.caze := None;
     CaseState.evidence := [sample_item "ev-1"];
     CaseState.events := [];
     CaseState.file := Some sample_file;
     CaseState.selectedEvidenceId := Some "ev-1";
     CaseState.busy := false;
     CaseState.err := None |}.

Definition refused_upload : Fetch.Response :=
  {| Fetch.ok := false;
     Fetch.content_type := Some "text/plain";
     Fetch.blob := Ok "Unsupported media kind";
     Fetch.text := Ok "Unsupported media kind";
     Fetch.json := Throw "Unexpected token" |}.

Definition failed_listing : CaseState.Listing :=
  {| CaseState.case_response := Ok None;
     CaseState.evidence_response := Throw "Network error";
     CaseState.events_response := Ok (Some []) |}.

Definition malformed_analysis : list (string * Js.value) :=
  [("trust_score", Js.Num 12%float); ("top_reasons", Js.Str "edited")].

Definition malformed_item : CaseState.Evidence :=
  {| CaseState.id := "ev-9";
     CaseState.case_id := "case-1";
     CaseState.filename := "clip.mp4";
     CaseState.sha256 := "ab12";
     CaseState.created_at := None;
     CaseState.summary := None;
     CaseState.provenance_state := None;
     CaseState.analysis_json := Js.Obj malformed_analysis |}.

Definition malformed_page : CaseState.Page :=
  {| CaseState.caze := None;
     CaseState.evidence := [malformed_item];
     CaseState.events := [];
     CaseState.file := None;
     CaseState.selectedEvidenceId := Some "ev-9";
     CaseState.busy := false;
     CaseState.err := None |}.

(** The state [stateBadge] reads: [result?.provenance_state]. *)
Definition state_of (result : option HomePage.AnalysisResult) : Js.value :=
  match result with
  | Some r => HomePage.provenance_state r
  | None => Js.Undefined
  end.

Definition truncated_json : Fetch.Response :=
  {| Fetch.ok := true;
     Fetch.content_type := Some "Application/JSON; charset=utf-8";
     Fetch.blob := Ok "{";
     Fetch.text := Ok "{";
     Fetch.json := Throw "Unexpected end of JSON input" |}.

(** * Properties *)

Lemma asStringParam_string (s : string) :
  CasePage.asStringParam (Js.Str s) = Ok (Js.Str s).
Proof. reflexivity. Qed.

(** C9: [asStringParam] never throws and always returns a string: the input
    itself when it is a string, the first element of an array whose first
    element is a string, and the empty string in every other case. *)
Theorem asStringParam_total (v : Js.value) :
  CasePage.asStringParam v = Ok (Js.Str (CasePage.asStringParam_expected v)).
Proof.
  destruct v as [ | | b | x | s | items | fields ]; try reflexivity.
  destruct items as [ | first rest ]; [ reflexivity | ].
  destruct first; reflexivity.
Qed.

Lemma prettyBytes_loop_bounded (fuel : nat) :
  forall (x : float) (i : nat),
    i <= 3 -> 3 - i <= fuel ->
    exists k : nat,
      i + k <= 3
      /\ HomePage.prettyBytes_loop fuel x i
         = Some (Nat.iter k HomePage.div1024 x, i + k).
Proof.
  induction fuel as [ | fuel IH ]; intros x i Hi Hfuel.
  - assert (i = 3) by lia. subst i. exists 0. split; [ lia | ].
    simpl. rewrite andb_false_r. reflexivity.
  - simpl. destruct (1024 <=? x)%float eqn:Hge; simpl.
    + destruct (i <? 3)%nat eqn:Hlt.
      * apply Nat.ltb_lt in Hlt.
        destruct (IH (HomePage.div1024 x) (S i)) as [k [Hk Hrun]]; [ lia | lia | ].
        exists (S k). split; [ lia | ].
        rewrite Hrun, Nat.iter_succ_r. do 2 f_equal. lia.
      * exists 0. split; [ lia | ]. simpl. do 2 f_equal. lia.
    + exists 0. split; [ lia | ]. simpl. do 2 f_equal. lia.
Qed.

(** [NaN === 0] is false. *)
Lemma nan_not_zero (n : float) :
  PrimFloat.is_nan n = true -> PrimFloat.eqb n 0%float = false.
Proof.
  unfold PrimFloat.is_nan. rewrite !FloatAxioms.eqb_spec.
  replace (Prim2SF 0) with (SpecFloat.S754_zero false) by reflexivity.
  destruct (Prim2SF n) as [ s | s | | s m e ]; intros Hnan;
    try reflexivity; try discriminate Hnan; destruct s; reflexivity.
Qed.

Lemma unit_at_listed (k : nat) :
  k <= 3 -> In (HomePage.unit_at k) HomePage.units.
Proof.
  intros Hk.
  destruct k as [ | [ | [ | [ | k ] ] ] ]; simpl; auto; lia.
Qed.

(** C10: with three units of fuel or more the loop of [prettyBytes] never
    runs out: it performs [k <= 3] iterations, the unit shown is one of
    B, KB, MB, GB and the value shown is the input divided [k] times by
    1024; a NaN input gives the empty string. *)
Theorem prettyBytes_terminates
  (toFixed : float -> nat -> string) (fuel : nat) (n : float) :
  3 <= fuel ->
  (PrimFloat.is_nan n = true -> HomePage.prettyBytes toFixed fuel n = Some "")
  /\ (PrimFloat.is_nan n = false ->
      exists k : nat,
        k <= 3
        /\ In (HomePage.unit_at k) HomePage.units
        /\ HomePage.prettyBytes_loop fuel n 0
           = Some (Nat.iter k HomePage.div1024 n, k)
        /\ HomePage.prettyBytes toFixed fuel n
           = Some (toFixed (Nat.iter k HomePage.div1024 n)
                     (if (k =? 0)%nat then 0 else 1)
                   ++ " " ++ HomePage.unit_at k)).
Proof.
  intros Hfuel. unfold HomePage.prettyBytes, Js.num_truthy. split.
  - intros Hnan. rewrite Hnan, orb_true_r. simpl.
    rewrite (nan_not_zero n Hnan). reflexivity.
  - intros Hnan. rewrite Hnan, orb_false_r, negb_involutive, andb_negb_r.
    destruct (prettyBytes_loop_bounded fuel n 0) as [k [Hk Hrun]]; [ lia | lia | ].
    simpl in Hk, Hrun. exists k. rewrite Hrun.
    repeat split; auto using unit_at_listed.
Qed.

Lemma prettyBytes_terminates_witness :
  HomePage.prettyBytes toFixed_stub 3 nan = Some ""
  /\ HomePage.prettyBytes toFixed_stub 3 5368709120%float = Some "<dec> GB".
Proof.
  destruct (prettyBytes_terminates toFixed_stub 3 nan (le_n 3)) as [Hnan _].
  split; [ exact (Hnan eq_refl) | reflexivity ].
Defined.

(** ** The state badge *)

Lemma is_str_wire_other (s lit : string) :
  s <> lit -> Js.is_str (Js.Str s) lit = false.
Proof. intros Hne. simpl. now apply String.eqb_neq. Qed.

Lemma stateBadge_fallback (r : HomePage.AnalysisResult) (s : string) :
  HomePage.provenance_state r = Js.Str s ->
  (forall st, s <> HomePage.wire_name st) ->
  HomePage.stateBadge (Some r)
  = {| HomePage.label := Js.Str (Str.or_else s HomePage.em_dash);
       HomePage.cls := HomePage.generic_cls |}.
Proof.
  intros Hs Hother. unfold HomePage.stateBadge. rewrite Hs.
  destruct s as [ | c s' ]; [ reflexivity | ].
  change (Js.or_else (Js.Str (String c s')) (Js.Str "")) with (Js.Str (String c s')).
  pose proof (Hother HomePage.VERIFIED_ORIGINAL) as Hv.
  pose proof (Hother HomePage.ALTERED_OR_BROKEN_PROVENANCE) as Ha.
  pose proof (Hother HomePage.UNVERIFIABLE_NO_PROVENANCE) as Hu.
  cbn [HomePage.wire_name] in Hv, Ha, Hu.
  rewrite (is_str_wire_other _ _ Hv), (is_str_wire_other _ _ Ha),
    (is_str_wire_other _ _ Hu).
  reflexivity.
Qed.

(** C7: the three provenance states are all there is to the enumeration,
    their wire names are pairwise different, [stateBadge] gives two
    different states different labels and different styling, and every
    string that is not one of the three wire names gets the one generic
    badge (the string itself, or a dash when it is empty, in the generic
    styling). *)
Theorem stateBadge_three_states :
  (forall st, In st HomePage.all_states)
  /\ List.NoDup (map HomePage.wire_name HomePage.all_states)
  /\ (forall st1 st2 r1 r2,
        HomePage.provenance_state r1 = Js.Str (HomePage.wire_name st1) ->
        HomePage.provenance_state r2 = Js.Str (HomePage.wire_name st2) ->
        st1 <> st2 ->
        HomePage.label (HomePage.stateBadge (Some r1))
        <> HomePage.label (HomePage.stateBadge (Some r2))
        /\ HomePage.cls (HomePage.stateBadge (Some r1))
           <> HomePage.cls (HomePage.stateBadge (Some r2)))
  /\ (forall r s,
        HomePage.provenance_state r = Js.Str s ->
        (forall st, s <> HomePage.wire_name st) ->
        HomePage.stateBadge (Some r)
        = {| HomePage.label := Js.Str (Str.or_else s HomePage.em_dash);
             HomePage.cls := HomePage.generic_cls |}).
Proof.
  split; [ | split; [ | split ] ].
  - intros [ | | ]; simpl; auto.
  - simpl. repeat (apply List.NoDup_cons; [ simpl; intuition discriminate | ]).
    apply List.NoDup_nil.
  - intros st1 st2 r1 r2 H1 H2 Hne. unfold HomePage.stateBadge.
    rewrite H1, H2.
    destruct st1, st2; try congruence; simpl; split; discriminate.
  - exact stateBadge_fallback.
Qed.

Lemma stateBadge_three_states_witness :
  HomePage.label (HomePage.stateBadge
                    (Some (result_with_state (Js.Str "VERIFIED_ORIGINAL"))))
  <> HomePage.label (HomePage.stateBadge
                       (Some (result_with_state
                                (Js.Str "UNVERIFIABLE_NO_PROVENANCE"))))
  /\ HomePage.stateBadge (Some (result_with_state (Js.Str "PENDING")))
     = {| HomePage.label := Js.Str "PENDING";
          HomePage.cls := HomePage.generic_cls |}.
Proof.
  destruct stateBadge_three_states as [_ [_ [Hdistinct Hfallback]]].
  split.
  - apply (Hdistinct HomePage.VERIFIED_ORIGINAL
             HomePage.UNVERIFIABLE_NO_PROVENANCE
             (result_with_state (Js.Str "VERIFIED_ORIGINAL"))
             (result_with_state (Js.Str "UNVERIFIABLE_NO_PROVENANCE"))
             eq_refl eq_refl).
    discriminate.
  - apply (Hfallback (result_with_state (Js.Str "PENDING")) "PENDING" eq_refl).
    intros [ | | ]; discriminate.
Defined.

(** ** The quick-scan mapping *)

Lemma dot_field (raw : Js.value) (k : string) :
  Js.is_nullish raw = false -> HomePage.dot raw k = Ok (HomePage.field raw k).
Proof. destruct raw; simpl; intros H; try discriminate H; reflexivity. Qed.

Lemma dot2_nested (raw : Js.value) (k1 k2 : string) :
  Js.is_nullish raw = false ->
  HomePage.dot2 raw k1 k2 = Ok (HomePage.nested raw k1 k2).
Proof.
  intros H. unfold HomePage.dot2, HomePage.nested.
  fold (HomePage.dot raw k1). rewrite (dot_field raw k1 H). simpl.
  destruct (HomePage.field raw k1); reflexivity.
Qed.

Lemma coalesce_values (a b : Js.value) :
  Js.coalesce (Ok a) (Ok b) = Ok (Js.nullish_or a b).
Proof. unfold Js.coalesce, Js.nullish_or. destruct (Js.is_nullish a); reflexivity. Qed.

Lemma nullish_or_single (a d : Js.value) :
  Js.nullish_or a d = HomePage.first_present [a] d.
Proof. reflexivity. Qed.

Lemma nullish_or_first_present (l : list Js.value) (b c : Js.value) :
  Js.nullish_or (HomePage.first_present l b) c
  = HomePage.first_present (l ++ [b])%list c.
Proof.
  induction l as [ | v l IH ]; [ reflexivity | ].
  simpl. destruct (Js.is_nullish v) eqn:Hv; [ exact IH | ].
  unfold Js.nullish_or. now rewrite Hv.
Qed.

Lemma mapResponse_first_present (raw : Js.value) (file : HomePage.File) :
  Js.is_nullish raw = false ->
  HomePage.mapResponse raw file = Ok (HomePage.first_present_mapping raw file).
Proof.
  intros Hraw. unfold HomePage.mapResponse.
  repeat (first [ rewrite (dot_field raw _ Hraw)
                | rewrite (dot2_nested raw _ _ Hraw)
                | rewrite coalesce_values ]; cbn [bindE]).
  repeat match goal with
         | |- context [ Js.nullish_or (HomePage.field raw ?k) ?d ] =>
             rewrite (nullish_or_single (HomePage.field raw k) d)
         end.
  rewrite !nullish_or_first_present. reflexivity.
Qed.

(** A [null] body has no fields to read: the mapping throws and the page
    shows the error instead of a result. *)
Lemma mapResponse_null (file : HomePage.File) :
  HomePage.mapResponse Js.Null file = Throw Js.type_error.
Proof. reflexivity. Qed.

(** C8: for every response body that has fields at all, each field of the
    mapped [AnalysisResult] is the first present of its alternative flat or
    nested keys (with the field's default when none is present), and
    [quickScan] stores that record as it is; nothing checks the values
    against the declared types, as the nested response shows: its state is
    taken from [provenance.state] and is a number. *)
Theorem quickScan_first_present
  (st : HomePage.ScanState) (raw : Js.value) (file : HomePage.File)
  (res : Fetch.Response) :
  Js.is_nullish raw = false ->
  Fetch.ok res = true ->
  Fetch.json res = Ok raw ->
  HomePage.mapResponse raw file = Ok (HomePage.first_present_mapping raw file)
  /\ HomePage.quickScan st (Some file) (Ok res)
     = {| HomePage.scan_busy := false;
          HomePage.scan_err := None;
          HomePage.scan_result :=
            Some (HomePage.first_present_mapping raw file) |}
  /\ HomePage.provenance_state
       (HomePage.first_present_mapping nested_response file)
     = Js.Num 7%float
  /\ HomePage.findings (HomePage.first_present_mapping nested_response file)
     = Js.Num 3%float.
Proof.
  intros Hraw Hok Hjson. split; [ now apply mapResponse_first_present | ].
  split; [ | split; reflexivity ].
  unfold HomePage.quickScan. simpl. rewrite Hok, Hjson. simpl.
  now rewrite (mapResponse_first_present raw file Hraw).
Qed.

Lemma quickScan_first_present_witness :
  HomePage.quickScan idle_scan (Some sample_file) (Ok nested_http_response)
  = {| HomePage.scan_busy := false;
       HomePage.scan_err := None;
       HomePage.scan_result :=
         Some (HomePage.first_present_mapping nested_response sample_file) |}.
Proof.
  exact (proj1 (proj2 (quickScan_first_present idle_scan nested_response
                         sample_file nested_http_response
                         eq_refl eq_refl eq_refl))).
Defined.

(** ** Report download *)

Lemma rev_string_app (a b acc : string) :
  Str.rev_string (a ++ b) acc = Str.rev_string b (Str.rev_string a acc).
Proof.
  revert acc. induction a as [ | c a IH ]; intros acc; [ reflexivity | ].
  simpl. apply IH.
Qed.

Lemma endsWith_pdf (stem : string) : Str.endsWith ".pdf" (stem ++ ".pdf") = true.
Proof.
  unfold Str.endsWith. rewrite rev_string_app. simpl.
  destruct (Str.rev_string stem ""); reflexivity.
Qed.

Lemma endsWith_pdf_md (a b : string) :
  Str.endsWith ".pdf" (a ++ b ++ ".md") = false.
Proof. unfold Str.endsWith. rewrite !rev_string_app. reflexivity. Qed.

Lemma endsWith_pdf_json (a b : string) :
  Str.endsWith ".pdf" (a ++ b ++ ".json") = false.
Proof. unfold Str.endsWith. rewrite !rev_string_app. reflexivity. Qed.

Lemma endsWith_pdf_txt (a b : string) :
  Str.endsWith ".pdf" (a ++ b ++ ".txt") = false.
Proof. unfold Str.endsWith. rewrite !rev_string_app. reflexivity. Qed.

(** The case-level caller saves an [application/pdf] answer as a PDF. *)
Lemma generateReport_pdf
  (busy0 : bool) (caseId body : string) (res : Fetch.Response) :
  Str.is_empty caseId = false ->
  Fetch.ok res = true ->
  Str.includes "application/pdf" (CasePage.lowered_content_type res) = true ->
  Fetch.blob res = Ok body ->
  CasePage.generateReport busy0 caseId (Ok res)
  = {| CasePage.busy := false;
       CasePage.err := None;
       CasePage.download :=
         Some (CasePage.ResponseBlob body,
               "truthsig-report-" ++ caseId ++ ".pdf") |}.
Proof.
  intros Hid Hok Hct Hblob.
  unfold CasePage.generateReport, CasePage.generateReport_body,
    CasePage.require_ok.
  rewrite Hid. cbn [bindE]. rewrite Hok. cbn [bindE].
  rewrite Hct, Hblob. reflexivity.
Qed.

(** The case-level caller saves a JSON answer that carries a non-blank
    [markdown] string as that text. *)
Lemma generateReport_markdown
  (busy0 : bool) (caseId md : string) (data : Js.value)
  (res : Fetch.Response) :
  Str.is_empty caseId = false ->
  Fetch.ok res = true ->
  Str.includes "application/pdf" (CasePage.lowered_content_type res) = false ->
  Str.includes "application/json" (CasePage.lowered_content_type res) = true ->
  Fetch.json res = Ok data ->
  HomePage.field data "markdown" = Js.Str md ->
  Str.is_empty (Str.trim md) = false ->
  CasePage.generateReport busy0 caseId (Ok res)
  = {| CasePage.busy := false;
       CasePage.err := Some CasePage.markdown_notice;
       CasePage.download :=
         Some (CasePage.TextBlob md "text/markdown;charset=utf-8",
               "truthsig-report-" ++ caseId ++ ".md") |}.
Proof.
  intros Hid Hok Hpdf Hjson Hdata Hmd Htrim.
  unfold CasePage.generateReport, CasePage.generateReport_body,
    CasePage.require_ok.
  rewrite Hid. cbn [bindE]. rewrite Hok. cbn [bindE].
  rewrite Hpdf, Hjson, Hdata.
  cbn [Fetch.catch].
  assert (Hget : Js.opt_get data "markdown" = Ok (Js.Str md)).
  { destruct data; simpl in Hmd; try discriminate Hmd.
    unfold Js.opt_get. simpl. now rewrite Hmd. }
  rewrite Hget. cbn [bindE]. rewrite Htrim. reflexivity.
Qed.

(** The case-level caller never names a file [*.pdf] unless the content
    type says PDF. *)
Lemma generateReport_never_mislabels
  (busy0 : bool) (caseId : string) (res : Fetch.Response) :
  Str.includes "application/pdf" (CasePage.lowered_content_type res) = false ->
  CasePage.saved_as_pdf (CasePage.generateReport busy0 caseId (Ok res)) = false.
Proof.
  intros Hpdf.
  unfold CasePage.generateReport, CasePage.generateReport_body,
    CasePage.require_ok.
  destruct (Str.is_empty caseId); [ reflexivity | ]. cbn [bindE].
  destruct (Fetch.ok res).
  - cbn [bindE]. rewrite Hpdf.
    destruct (Str.includes "application/json" _).
    + destruct (Js.opt_get _ "markdown") as [ md | e ]; [ | reflexivity ].
      cbn [bindE].
      destruct md as [ | | b | x | m | items | fields ];
        try (cbn [CasePage.saved_as_pdf CasePage.try_catch CasePage.download];
             apply endsWith_pdf_json).
      destruct (negb (Str.is_empty (Str.trim m)));
        cbn [CasePage.saved_as_pdf CasePage.try_catch CasePage.download];
        [ apply endsWith_pdf_md | apply endsWith_pdf_json ].
    + destruct (Fetch.text res); [ | reflexivity ].
      cbn [bindE CasePage.saved_as_pdf CasePage.try_catch CasePage.download].
      apply endsWith_pdf_txt.
  - destruct (Fetch.text res); reflexivity.
Qed.

(** The per-evidence caller never looks at the content type: every
    successful answer is saved under a [*.pdf] name. *)
Lemma generateEvidenceReport_any_content_type
  (busy0 : bool) (caseId evidenceId body : string) (res : Fetch.Response) :
  Str.is_empty caseId = false ->
  Str.is_empty evidenceId = false ->
  Fetch.ok res = true ->
  Fetch.blob res = Ok body ->
  CasePage.generateEvidenceReport busy0 caseId (Some evidenceId) (Ok res)
  = {| CasePage.busy := false;
       CasePage.err := None;
       CasePage.download :=
         Some (CasePage.ResponseBlob body,
               "truthsig-evidence-" ++ evidenceId ++ ".pdf") |}.
Proof.
  intros Hcase Hev Hok Hblob.
  unfold CasePage.generateEvidenceReport, CasePage.require_ok.
  rewrite Hcase, Hev. cbn [orb bindE]. rewrite Hok. cbn [bindE].
  rewrite Hblob. reflexivity.
Qed.

(** C1: on the structured fallback ([application/json] with the text under
    [markdown]) the case-level caller saves the text as [*.md], while the
    per-evidence caller saves the raw JSON body under a [*.pdf] name: it
    does not branch on the content type. *)
Theorem generateEvidenceReport_saves_json_as_pdf :
  CasePage.generateReport false "case-1" (Ok markdown_fallback)
  = {| CasePage.busy := false;
       CasePage.err := Some CasePage.markdown_notice;
       CasePage.download :=
         Some (CasePage.TextBlob "# Report" "text/markdown;charset=utf-8",
               "truthsig-report-case-1.md") |}
  /\ CasePage.generateEvidenceReport false "case-1" (Some "ev-1")
       (Ok markdown_fallback)
     = {| CasePage.busy := false;
          CasePage.err := None;
          CasePage.download :=
            Some (CasePage.ResponseBlob markdown_body,
                  "truthsig-evidence-ev-1.pdf") |}
  /\ CasePage.saved_as_pdf
       (CasePage.generateReport false "case-1" (Ok markdown_fallback))
     = false
  /\ CasePage.saved_as_pdf
       (CasePage.generateEvidenceReport false "case-1" (Some "ev-1")
          (Ok markdown_fallback))
     = true.
Proof. repeat split; vm_compute; reflexivity. Qed.

(** ** Custody ledger *)

Section LedgerFacts.

Variable H_payload : string -> string -> Z -> bits -> digest.
Variable H_link : digest -> digest -> digest.

(** The hash functions are taken to be free of collisions. *)
Hypothesis H_payload_collision_free :
  forall type who now p q, H_payload type who now p = H_payload type who now q -> p = q.
Hypothesis H_link_collision_free :
  forall h h' prev, H_link h prev = H_link h' prev -> h = h'.

Lemma flipped_bit_differs (j : nat) (p : bits) :
  j < length p -> alter negb j p <> p.
Proof.
  revert j. induction p as [ | b p IH ]; intros j Hj; [ simpl in Hj; lia | ].
  destruct j as [ | j ]; simpl.
  - intros Heq. injection Heq as Hb. destruct b; discriminate.
  - intros Heq. injection Heq as Hp. apply (IH j); [ simpl in Hj; lia | exact Hp ].
Qed.

Lemma tampered_event_diverges (prev : digest) (j : nat) (e : Ledger.CustodyEvent) :
  j < length (Ledger.payload e) ->
  Ledger.recompute H_payload H_link prev e = Ledger.combined_hash e ->
  Ledger.recompute H_payload H_link prev (Ledger.tamper j e)
  <> Ledger.combined_hash (Ledger.tamper j e).
Proof.
  intros Hj Hstored Heq. unfold Ledger.recompute in *. simpl in Heq.
  rewrite <- Hstored in Heq.
  apply H_link_collision_free, H_payload_collision_free in Heq.
  exact (flipped_bit_differs j _ Hj Heq).
Qed.

Lemma walk_tampered (events : list Ledger.CustodyEvent) :
  forall (prev : digest) (k j : nat) (e : Ledger.CustodyEvent)
         (tail : list Ledger.CustodyEvent),
    Ledger.walk H_payload H_link prev events = Ledger.ChainVerified ->
    events !! k = Some e ->
    j < length (Ledger.payload e) ->
    Ledger.walk H_payload H_link prev (take k events) = Ledger.ChainVerified
    /\ Ledger.walk H_payload H_link prev
         (take k events ++ Ledger.tamper j e :: tail)
       = Ledger.ChainIntegrityViolation (Ledger.id e).
Proof.
  induction events as [ | e0 events IH ]; intros prev k j e tail Hok Hk Hj.
  - discriminate Hk.
  - simpl in Hok.
    destruct (decide (Ledger.recompute H_payload H_link prev e0
                      = Ledger.combined_hash e0)) as [ Hstored | ];
      [ | discriminate Hok ].
    destruct k as [ | k ].
    + injection Hk as ->. split; [ reflexivity | ].
      simpl. destruct (decide _) as [ Heq | _ ]; [ | reflexivity ].
      exfalso. exact (tampered_event_diverges prev j e Hj Hstored Heq).
    + simpl in Hk. simpl.
      destruct (decide _) as [ _ | Hne ]; [ | contradiction ].
      exact (IH _ k j e tail Hok Hk Hj).
Qed.

(** C2: in a chain that verifies, flipping any one bit of the stored
    payload of any event (every hash left as stored) makes the walk end in
    [ChainIntegrityViolation], an [IntegrityError], at that event and with
    its id: the events before it still verify, and nothing after it is
    looked at, whatever it is. The hash functions are assumed free of
    collisions. *)
Theorem walk_detects_bit_flip
  (events : list Ledger.CustodyEvent) (k j : nat) (e : Ledger.CustodyEvent) :
  Ledger.verify H_payload H_link events = Ledger.ChainVerified ->
  events !! k = Some e ->
  j < length (Ledger.payload e) ->
  Ledger.verify H_payload H_link (<[k := Ledger.tamper j e]> events)
  = Ledger.ChainIntegrityViolation (Ledger.id e)
  /\ Ledger.error_class
       (Ledger.verify H_payload H_link (<[k := Ledger.tamper j e]> events))
     = Some IntegrityError
  /\ Ledger.verify H_payload H_link (take k events) = Ledger.ChainVerified
  /\ (forall tail,
        Ledger.verify H_payload H_link
          (take k events ++ Ledger.tamper j e :: tail)
        = Ledger.ChainIntegrityViolation (Ledger.id e)).
Proof.
  intros Hok Hk Hj. unfold Ledger.verify in *.
  assert (Hdetected :
            Ledger.walk H_payload H_link Ledger.genesis
              (<[k := Ledger.tamper j e]> events)
            = Ledger.ChainIntegrityViolation (Ledger.id e)).
  { rewrite insert_take_drop by (eapply lookup_lt_Some; exact Hk).
    apply (walk_tampered events _ k j e _ Hok Hk Hj). }
  split; [ exact Hdetected | ]. split; [ now rewrite Hdetected | ].
  split.
  - exact (proj1 (walk_tampered events _ k j e [] Hok Hk Hj)).
  - intros tail. exact (proj2 (walk_tampered events _ k j e tail Hok Hk Hj)).
Qed.

(** Appending to a chain that verifies gives a chain that verifies. *)
Lemma walk_append (events : list Ledger.CustodyEvent) :
  forall (prev : digest) (e : Ledger.CustodyEvent),
    Ledger.walk H_payload H_link prev events = Ledger.ChainVerified ->
    Ledger.recompute H_payload H_link
      (match last events with
       | Some l => Ledger.combined_hash l
       | None => prev
       end) e
    = Ledger.combined_hash e ->
    Ledger.walk H_payload H_link prev (events ++ [e]) = Ledger.ChainVerified.
Proof.
  induction events as [ | e0 events IH ]; intros prev e Hok Hnew.
  - simpl in *. destruct (decide _); [ reflexivity | contradiction ].
  - simpl in Hok |- *.
    destruct (decide _) as [ _ | _ ]; [ | discriminate Hok ].
    apply IH; [ exact Hok | ].
    destruct events as [ | next events ]; [ exact Hnew | ].
    rewrite last_cons_cons in Hnew.
    destruct (last (next :: events)) eqn:Hlast; [ exact Hnew | ].
    apply last_None in Hlast. discriminate Hlast.
Qed.

Lemma append_verified
  (chain : list Ledger.CustodyEvent) (case : nat) (type who : string)
  (now : Z) (data : bits) :
  Ledger.verify H_payload H_link chain = Ledger.ChainVerified ->
  Ledger.verify H_payload H_link
    (Ledger.append H_payload H_link chain case type who now data)
  = Ledger.ChainVerified.
Proof.
  intros Hok. unfold Ledger.verify, Ledger.append.
  apply walk_append; [ exact Hok | reflexivity ].
Qed.

(** Every ledger built by appends verifies. *)
Lemma replay_verified (case : nat) (entries : list (string * string * Z * bits)) :
  Ledger.verify H_payload H_link (Ledger.replay H_payload H_link case entries)
  = Ledger.ChainVerified.
Proof.
  unfold Ledger.replay.
  induction entries as [ | [[[type who] now] data] entries IH ] using rev_ind;
    [ reflexivity | ].
  rewrite fold_left_app. simpl. now apply append_verified.
Qed.

End LedgerFacts.

Lemma toy_payload_hash_collision_free (type who : string) (now : Z) (p q : bits) :
  toy_payload_hash type who now p = toy_payload_hash type who now q -> p = q.
Proof.
  unfold toy_payload_hash. intros Heq.
  apply app_inv_head in Heq. now injection Heq.
Qed.

Lemma toy_link_collision_free (h h' prev : digest) :
  toy_link h prev = toy_link h' prev -> h = h'.
Proof. unfold toy_link. apply app_inv_tail. Qed.

Lemma walk_detects_bit_flip_witness :
  Ledger.verify toy_payload_hash toy_link sample_chain = Ledger.ChainVerified
  /\ Ledger.verify toy_payload_hash toy_link
       (<[0 := Ledger.tamper 1 sample_first_event]> sample_chain)
     = Ledger.ChainIntegrityViolation 0.
Proof.
  split; [ vm_compute; reflexivity | ].
  apply (walk_detects_bit_flip toy_payload_hash toy_link
           toy_payload_hash_collision_free toy_link_collision_free
           sample_chain 0 1 sample_first_event).
  - vm_compute. reflexivity.
  - reflexivity.
  - simpl. lia.
Defined.

(** ** Video analyzer *)

#[local] Instance by_index_transitive : Transitive Video.by_index.
Proof. intros a b c. unfold Video.by_index. lia. Qed.

#[local] Instance by_index_total : Total Video.by_index.
Proof. intros a b. unfold Video.by_index. lia. Qed.

Lemma results_from_lookup (scores : list Z) :
  forall (p k : nat) (fr : Video.FrameResult),
    Video.results_from p scores !! k = Some fr ->
    Video.frame_index fr = p + k /\ scores !! k = Some (Video.anomaly fr).
Proof.
  induction scores as [ | s scores IH ]; intros p k fr Hk; [ discriminate Hk | ].
  destruct k as [ | k ]; simpl in Hk.
  - injection Hk as <-. simpl. split; [ lia | reflexivity ].
  - destruct (IH (S p) k fr Hk) as [Hidx Hs]. split; [ lia | exact Hs ].
Qed.

Lemma results_from_length (scores : list Z) (p : nat) :
  length (Video.results_from p scores) = length scores.
Proof.
  revert p. induction scores as [ | s scores IH ]; intros p; simpl;
    [ reflexivity | now rewrite IH ].
Qed.

(** Two results of one video with the same frame index are the same. *)
Lemma results_from_index_inj (scores : list Z) (p : nat)
  (a b : Video.FrameResult) :
  a ∈ Video.results_from p scores ->
  b ∈ Video.results_from p scores ->
  Video.frame_index a = Video.frame_index b ->
  a = b.
Proof.
  intros Ha Hb Hidx.
  apply list_elem_of_lookup in Ha as [ka Hka].
  apply list_elem_of_lookup in Hb as [kb Hkb].
  destruct (results_from_lookup scores p ka a Hka) as [Hia _].
  destruct (results_from_lookup scores p kb b Hkb) as [Hib _].
  assert (ka = kb) by lia. subst kb. congruence.
Qed.

Lemma results_from_ascending (scores : list Z) (p : nat) :
  StronglySorted (fun a b => Video.frame_index a < Video.frame_index b)
    (Video.results_from p scores).
Proof.
  revert p. induction scores as [ | s scores IH ]; intros p; simpl;
    constructor; [ apply IH | ].
  apply Forall_forall. intros fr Hfr.
  apply list_elem_of_lookup in Hfr as [k Hk].
  destruct (results_from_lookup scores (S p) k fr Hk) as [Hidx _].
  simpl. lia.
Qed.

Lemma StronglySorted_weaken {A : Type} (R S : relation A) (l : list A) :
  (forall a b, R a b -> S a b) -> StronglySorted R l -> StronglySorted S l.
Proof.
  intros HRS Hl. induction Hl as [ | x l Hl IH Hx ]; constructor; [ exact IH | ].
  eapply Forall_impl; [ exact Hx | ]. intros y. apply HRS.
Qed.

Lemma StronglySorted_sublist {A : Type} (R : relation A) (l1 l2 : list A) :
  l1 `sublist_of` l2 -> StronglySorted R l2 -> StronglySorted R l1.
Proof.
  intros Hsub. induction Hsub as [ | x l1 l2 Hsub IH | x l1 l2 Hsub IH ];
    intros Hl2.
  - constructor.
  - apply StronglySorted_inv in Hl2 as [Hl2 Hx]. constructor; [ now apply IH | ].
    apply Forall_forall. intros y Hy. rewrite Forall_forall in Hx.
    apply Hx. eapply elem_of_sublist; eauto.
  - apply StronglySorted_inv in Hl2 as [Hl2 _]. now apply IH.
Qed.

(** Whatever the completion order, ordering the collected results gives
    the results in sampling order. *)
Lemma ordered_completion (scores : list Z) (completed : list Video.FrameResult) :
  completed ≡ₚ Video.frame_results scores ->
  Video.ordered completed = Video.frame_results scores.
Proof.
  intros Hperm. unfold Video.ordered.
  apply (StronglySorted_unique_strong Video.by_index).
  - intros a b Ha Hb Hab Hba.
    apply (results_from_index_inj scores 0).
    + rewrite merge_sort_Permutation, Hperm in Ha. exact Ha.
    + exact Hb.
    + unfold Video.by_index in *. lia.
  - apply StronglySorted_merge_sort; typeclasses eauto.
  - eapply StronglySorted_weaken; [ | apply results_from_ascending ].
    intros a b. unfold Video.by_index. lia.
  - rewrite merge_sort_Permutation. exact Hperm.
Qed.

Lemma flag_from_sublist (cfg : Video.Config) (frames rest : list Video.FrameResult) :
  forall p, Video.flag_from cfg frames p rest `sublist_of` rest.
Proof.
  induction rest as [ | fr rest IH ]; intros p; simpl; [ constructor | ].
  destruct (Video.flagged_at cfg frames p fr).
  - apply sublist_skip, IH.
  - apply sublist_cons, IH.
Qed.

(** The indices that [flag_from] keeps are those selected by [sel], when
    [sel] agrees with the flagging rule on the frames at hand. *)
Lemma flag_from_indices (cfg : Video.Config) (frames : list Video.FrameResult)
  (sel : nat -> bool) (rest : list Video.FrameResult) :
  forall p,
    (forall k fr, rest !! k = Some fr ->
                  Video.frame_index fr = p + k
                  /\ Video.flagged_at cfg frames (p + k) fr = sel (p + k)) ->
    map Video.frame_index (Video.flag_from cfg frames p rest)
    = List.filter sel (seq p (length rest)).
Proof.
  induction rest as [ | fr rest IH ]; intros p Hrest; [ reflexivity | ].
  destruct (Hrest 0 fr eq_refl) as [Hidx Hflag].
  rewrite Nat.add_0_r in Hidx, Hflag. simpl. rewrite Hflag.
  assert (Htail : map Video.frame_index (Video.flag_from cfg frames (S p) rest)
                  = List.filter sel (seq (S p) (length rest))).
  { apply IH. intros k fr' Hk.
    destruct (Hrest (S k) fr' Hk) as [Hi Hf].
    replace (S p + k) with (p + S k) by lia. split; assumption. }
  destruct (sel p); simpl; now rewrite Htail, ?Hidx.
Qed.

Lemma analyze_complete (cfg : Video.Config) (scores : list Z)
  (completed : list Video.FrameResult) :
  completed ≡ₚ Video.frame_results scores ->
  Video.analyze cfg completed
  = take (Video.max_flagged cfg)
      (Video.flag_from cfg (Video.frame_results scores) 0
         (Video.frame_results scores)).
Proof.
  intros Hperm. unfold Video.analyze.
  now rewrite (ordered_completion scores completed Hperm).
Qed.

Lemma scenario_c_flagged_hot (i : nat) :
  scenario_c_flagged i = true <-> In i [7; 14; 22].
Proof.
  unfold scenario_c_flagged. rewrite existsb_exists. split.
  - intros [x [Hx Heq]]. apply Nat.eqb_eq in Heq. now subst x.
  - intros Hin. exists i. split; [ exact Hin | apply Nat.eqb_refl ].
Qed.

(** The neighbours of a frame are sampled frames. *)
Lemma neighbours_listed (w p : nat) (frames : list Video.FrameResult)
  (fr : Video.FrameResult) :
  fr ∈ Video.neighbours w p frames -> fr ∈ frames.
Proof.
  unfold Video.neighbours. rewrite elem_of_app. intros [Hbefore | Hafter].
  - eapply elem_of_sublist; [ exact Hbefore | ].
    etransitivity; [ apply sublist_drop | apply sublist_take ].
  - eapply elem_of_sublist; [ exact Hafter | ].
    etransitivity; [ apply sublist_take | apply sublist_drop ].
Qed.

(** A score within [limit] of each score of a list is within [limit] of
    their mean (multiplied through by the length of the list). *)
Lemma total_anomaly_within (limit a : Z) (ns : list Video.FrameResult) :
  (forall fr, fr ∈ ns -> (Z.abs (a - Video.anomaly fr) <= limit)%Z) ->
  (Z.abs (a * Z.of_nat (length ns) - Video.total_anomaly ns)
   <= limit * Z.of_nat (length ns))%Z.
Proof.
  induction ns as [ | fr ns IH ]; intros Hns.
  - simpl. lia.
  - assert (Hfr : (Z.abs (a - Video.anomaly fr) <= limit)%Z)
      by (apply Hns; left).
    assert (Htl : (Z.abs (a * Z.of_nat (length ns) - Video.total_anomaly ns)
                   <= limit * Z.of_nat (length ns))%Z)
      by (apply IH; intros fr' Hfr'; apply Hns; now right).
    cbn [length Video.total_anomaly fold_right].
    fold (Video.total_anomaly ns). rewrite Nat2Z.inj_succ. lia.
Qed.

(** The discontinuity rule is silent on a frame whose score is within the
    deviation limit of the score of every sampled frame. *)
Lemma within_limit_never_deviates (cfg : Video.Config) (scores : list Z)
  (i : nat) (fr : Video.FrameResult) :
  Video.frame_results scores !! i = Some fr ->
  (forall j t, scores !! j = Some t ->
               (Z.abs (Video.anomaly fr - t) <= Video.deviation_limit cfg)%Z) ->
  Video.deviates cfg (Video.frame_results scores) i fr = false.
Proof.
  intros Hi Hnear. unfold Video.deviates. cbv zeta.
  apply andb_false_iff. right. apply Z.ltb_ge.
  apply total_anomaly_within. intros fr' Hfr'.
  apply neighbours_listed, list_elem_of_lookup in Hfr' as [j Hj].
  destruct (results_from_lookup scores 0 j fr' Hj) as [_ Hscore].
  exact (Hnear j (Video.anomaly fr') Hscore).
Qed.

(** C5: whatever the order in which the per-frame analyses of a video
    complete, the flagged-frame list is the same, its frame indices are
    strictly ascending and it holds at most [max_flagged] frames. With 30
    sampled frames of which exactly frames 7, 14 and 22 score over the
    absolute threshold, the flagged indices are [7; 14; 22] when the maximum
    reported count is at least three and the discontinuity rule flags no
    other frame. *)
Theorem flagged_frames_order_independent
  (cfg : Video.Config) (scores : list Z)
  (completed completed' : list Video.FrameResult) :
  completed ≡ₚ Video.frame_results scores ->
  completed' ≡ₚ Video.frame_results scores ->
  Video.analyze cfg completed = Video.analyze cfg completed'
  /\ StronglySorted lt (Video.flagged_frames cfg completed)
  /\ length (Video.flagged_frames cfg completed) <= Video.max_flagged cfg
  /\ (length scores = 30 ->
      (forall i s,
          scores !! i = Some s ->
          (Video.threshold cfg < s)%Z <-> In i [7; 14; 22]) ->
      3 <= Video.max_flagged cfg ->
      (forall i fr,
          Video.frame_results scores !! i = Some fr ->
          ~ In i [7; 14; 22] ->
          Video.deviates cfg (Video.frame_results scores) i fr = false) ->
      Video.flagged_frames cfg completed = [7; 14; 22]).
Proof.
  intros Hperm Hperm'.
  pose proof (analyze_complete cfg scores completed Hperm) as Hrun.
  split; [ | split; [ | split ] ].
  - rewrite Hrun. symmetry. now apply analyze_complete.
  - unfold Video.flagged_frames. rewrite Hrun.
    apply (StronglySorted_fmap Video.frame_index
             (fun a b => Video.frame_index a < Video.frame_index b) lt);
      [ auto | ].
    eapply StronglySorted_sublist; [ | apply (results_from_ascending scores 0) ].
    etransitivity; [ apply sublist_take | apply flag_from_sublist ].
  - unfold Video.flagged_frames. rewrite length_map, Hrun, length_take. lia.
  - intros Hlen Hover Hcap Hcalm. unfold Video.flagged_frames. rewrite Hrun.
    assert (Hall :
              map Video.frame_index
                (Video.flag_from cfg (Video.frame_results scores) 0
                   (Video.frame_results scores))
              = List.filter scenario_c_flagged
                  (seq 0 (length (Video.frame_results scores)))).
    { apply flag_from_indices. intros k fr Hk.
      destruct (results_from_lookup scores 0 k fr Hk) as [Hidx Hscore].
      split; [ exact Hidx | ]. simpl.
      specialize (Hover k (Video.anomaly fr) Hscore).
      unfold Video.flagged_at.
      destruct (scenario_c_flagged k) eqn:Hsel.
      - apply scenario_c_flagged_hot, Hover, Z.ltb_lt in Hsel.
        now rewrite Hsel.
      - assert (Hcold : ~ In k [7; 14; 22]).
        { intros Hin. apply scenario_c_flagged_hot in Hin. congruence. }
        rewrite (Hcalm k fr Hk Hcold), orb_false_r.
        apply Z.ltb_ge. apply Z.nlt_ge. intros Hlt. apply Hcold, Hover, Hlt. }
    unfold Video.frame_results in Hall at 3.
    rewrite results_from_length, Hlen in Hall.
    rewrite <- firstn_map, Hall.
    change (List.filter scenario_c_flagged (seq 0 30)) with [7; 14; 22].
    apply firstn_all2. simpl. exact Hcap.
Qed.

(** In the sample video exactly frames 7, 14 and 22 score over 50. *)
Lemma scenario_c_exceeding (i : nat) (s : Z) :
  scenario_c_scores !! i = Some s ->
  (50 < s)%Z <-> In i [7; 14; 22].
Proof.
  intros Hi.
  do 30 (destruct i as [ | i ];
         [ injection Hi as <-; simpl;
           split; intros H; [ try lia; tauto | ];
           repeat (destruct H as [ H | H ]; try discriminate H);
           solve [ lia | contradiction ]
         | ]).
  discriminate Hi.
Qed.

Lemma scenario_c_scores_range (j : nat) (t : Z) :
  scenario_c_scores !! j = Some t -> (10 <= t <= 90)%Z.
Proof.
  revert j t. apply Forall_lookup.
  unfold scenario_c_scores. cbn.
  repeat (apply Forall_cons; split; [ lia | ]). apply Forall_nil_2.
Qed.

Lemma flagged_frames_order_independent_witness :
  Video.flagged_frames scenario_c_config
    (reverse (Video.frame_results scenario_c_scores))
  = [7; 14; 22].
Proof.
  refine (proj2 (proj2 (proj2
            (flagged_frames_order_independent scenario_c_config
               scenario_c_scores
               (reverse (Video.frame_results scenario_c_scores))
               (Video.frame_results scenario_c_scores) _ _))) _ _ _ _).
  - apply reverse_Permutation.
  - reflexivity.
  - reflexivity.
  - exact scenario_c_exceeding.
  - simpl. lia.
  - intros i fr Hi _.
    apply (within_limit_never_deviates scenario_c_config scenario_c_scores i fr Hi).
    intros j t Hj.
    destruct (results_from_lookup scenario_c_scores 0 i fr Hi) as [_ Hs].
    pose proof (scenario_c_scores_range i _ Hs).
    pose proof (scenario_c_scores_range j t Hj).
    simpl. lia.
Defined.

(** The sample video, in which exactly frames 7, 14 and 22 score over the
    threshold, analysed under two other configurations: a maximum reported
    count of two cuts the list to [7; 14], and a deviation limit of 10
    makes the discontinuity rule flag the frames next to the three as
    well. In neither is the flagged-frame list [7; 14; 22]. *)
Lemma scenario_c_as_stated_fails :
  length scenario_c_scores = 30
  /\ (forall i s,
         scenario_c_scores !! i = Some s ->
         (Video.threshold scenario_c_capped < s)%Z <-> In i [7; 14; 22])
  /\ Video.flagged_frames scenario_c_capped
       (Video.frame_results scenario_c_scores)
     = [7; 14]
  /\ (forall i s,
         scenario_c_scores !! i = Some s ->
         (Video.threshold scenario_c_jumpy < s)%Z <-> In i [7; 14; 22])
  /\ 3 <= Video.max_flagged scenario_c_jumpy
  /\ Video.flagged_frames scenario_c_jumpy
       (Video.frame_results scenario_c_scores)
     = [5; 6; 7; 8; 9; 12; 13; 14; 15; 16; 20; 21; 22; 23; 24].
Proof.
  split; [ reflexivity | ].
  split; [ exact scenario_c_exceeding | ].
  split; [ vm_compute; reflexivity | ].
  split; [ exact scenario_c_exceeding | ].
  split; [ simpl; lia | vm_compute; reflexivity ].
Qed.

(** ** Content store *)

Section StoreFacts.

Variable digest_of : bits -> digest.
Variable sniff : bits -> option Store.MediaKind.
Variable H_payload : string -> string -> Z -> bits -> digest.
Variable H_link : digest -> digest -> digest.

Let upload := Store.upload digest_of sniff H_payload H_link.

Lemma find_snoc {A : Type} (f : A -> bool) (l : list A) (x : A) :
  List.find f l = None ->
  List.find f (l ++ [x]) = if f x then Some x else None.
Proof.
  induction l as [ | y l IH ]; simpl; [ reflexivity | ].
  destruct (f y); [ discriminate | exact IH ].
Qed.

(** Uploading content whose digest the case already holds. *)
Lemma upload_existing (s : Store.State) (who : string) (now : Z) (case : nat)
  (name : string) (content : bits) (kind : Store.MediaKind)
  (existing : Store.Evidence) :
  sniff content = Some kind ->
  Store.find_evidence s case (digest_of content) = Some existing ->
  upload s who now case name content
  = inr (existing,
         Store.record_event H_payload H_link s case "duplicate-detected"
           who now (digest_of content)).
Proof.
  intros Hkind Hfound. unfold upload, Store.upload.
  now rewrite Hkind, Hfound.
Qed.

(** After a successful upload the case holds the content's digest, on the
    record that was answered. *)
Lemma upload_registers (s s1 : Store.State) (who : string) (now : Z)
  (case : nat) (name : string) (content : bits) (e : Store.Evidence) :
  upload s who now case name content = inr (e, s1) ->
  Store.find_evidence s1 case (digest_of content) = Some e
  /\ exists kind, sniff content = Some kind.
Proof.
  unfold upload, Store.upload. intros Hup.
  destruct (sniff content) as [ kind | ]; [ | discriminate Hup ].
  split; [ | now exists kind ].
  destruct (Store.find_evidence s case (digest_of content)) as [ existing | ]
    eqn:Hfound; injection Hup as <- <-.
  - exact Hfound.
  - unfold Store.find_evidence in *. simpl.
    rewrite (find_snoc _ _ _ Hfound). unfold Store.matches. simpl.
    rewrite Nat.eqb_refl. now rewrite bool_decide_eq_true_2.
Qed.

Lemma record_event_duplicate (s : Store.State) (who : string) (now : Z)
  (case : nat) (data : bits) :
  duplicate_recorded s
    (Store.record_event H_payload H_link s case "duplicate-detected"
       who now data)
    case.
Proof.
  repeat split. unfold Store.ledger_of, Store.record_event. simpl.
  rewrite lookup_insert_eq. simpl. unfold Ledger.append.
  eexists. split; reflexivity.
Qed.

(** C4: when the case already holds evidence with the digest of the
    uploaded content (and the content is of a supported kind, as it was when
    it was first accepted), the upload answers that record as it is, adds no
    evidence record, no blob and no job, and records one
    "duplicate-detected" event on the case's ledger; in particular, after
    any successful upload, uploading the same bytes to the same case again
    answers the record of the first upload in that way. *)
Theorem upload_idempotent
  (s : Store.State) (who : string) (now : Z) (case : nat) (name : string)
  (content : bits) (kind : Store.MediaKind) (existing : Store.Evidence) :
  sniff content = Some kind ->
  Store.find_evidence s case (digest_of content) = Some existing ->
  (exists s',
      upload s who now case name content = inr (existing, s')
      /\ duplicate_recorded s s' case)
  /\ (forall s0 who0 now0 name0 first s1,
        upload s0 who0 now0 case name0 content = inr (first, s1) ->
        exists s2,
          upload s1 who now case name content = inr (first, s2)
          /\ duplicate_recorded s1 s2 case).
Proof.
  intros Hkind Hfound. split.
  - eexists. split; [ exact (upload_existing s who now case name content kind
                               existing Hkind Hfound) | ].
    apply record_event_duplicate.
  - intros s0 who0 now0 name0 first s1 Hfirst.
    destruct (upload_registers s0 s1 who0 now0 case name0 content first Hfirst)
      as [Hheld _].
    eexists. split; [ exact (upload_existing s1 who now case name content kind
                               first Hkind Hheld) | ].
    apply record_event_duplicate.
Qed.

End StoreFacts.

Lemma upload_idempotent_witness :
  Store.upload toy_digest toy_sniff toy_payload_hash toy_link
    empty_store "alice" 100%Z 4 "photo.jpg" sample_content
  = inr (sample_evidence, store_after_upload)
  /\ exists s',
      Store.upload toy_digest toy_sniff toy_payload_hash toy_link
        store_after_upload "bob" 200%Z 4 "copy.jpg" sample_content
      = inr (sample_evidence, s')
      /\ Store.evidences s' = [sample_evidence].
Proof.
  split; [ reflexivity | ].
  destruct (upload_idempotent toy_digest toy_sniff toy_payload_hash toy_link
              store_after_upload "bob" 200%Z 4 "copy.jpg" sample_content
              Store.ImageKind sample_evidence eq_refl eq_refl)
    as [[s' [Hup [Hev _]]] _].
  exists s'. split; [ exact Hup | exact Hev ].
Defined.

(** ** Manifest verifier *)

Section ManifestFacts.

Variable locate : bits -> option bits.
Variable parse : bits -> Manifest.ParseOutcome.
Variable signature_valid : list digest -> bits -> bool.
Variable hash : bits -> digest.

Let verify := Manifest.verify locate parse signature_valid hash.

Lemma verify_absent (roots : list digest) (blob : bits) :
  locate blob = None -> verify roots blob = Manifest.absent.
Proof. intros Hnone. unfold verify, Manifest.verify. now rewrite Hnone. Qed.

(** C6: when a manifest segment is found and does not parse to a complete
    manifest (it is malformed, or only a part of it can be read), the
    result is present, not verified and carries the parser's reason code;
    a blob without any manifest segment gives the absent result, which has
    no reason code, so the two outcomes differ. *)
Theorem verify_fails_closed
  (roots : list digest) (blob segment : bits) :
  locate blob = Some segment ->
  (forall m, parse segment <> Manifest.Complete m) ->
  Manifest.verified (verify roots blob) = false
  /\ Manifest.present (verify roots blob) = true
  /\ (exists code,
        Manifest.broken_reason (verify roots blob) = Some code
        /\ (parse segment = Manifest.Malformed code
            \/ exists recovered, parse segment = Manifest.Partial recovered code))
  /\ (forall other,
        locate other = None ->
        Manifest.broken_reason (verify roots other) = None
        /\ Manifest.present (verify roots other) = false
        /\ verify roots blob <> verify roots other).
Proof.
  intros Hseg Hbad. unfold verify, Manifest.verify. rewrite Hseg.
  destruct (parse segment) as [ m | recovered code | code ] eqn:Hparse.
  - exfalso. now apply (Hbad m).
  - split; [ reflexivity | ]. split; [ reflexivity | ]. split.
    + exists code. split; [ reflexivity | right; now exists recovered ].
    + intros other Hnone. rewrite Hnone. repeat split. discriminate.
  - split; [ reflexivity | ]. split; [ reflexivity | ]. split.
    + exists code. split; [ reflexivity | now left ].
    + intros other Hnone. rewrite Hnone. repeat split. discriminate.
Qed.

End ManifestFacts.

Lemma truncated_blob_incomplete (m : Manifest.Parsed) :
  toy_parse [true; false; true] <> Manifest.Complete m.
Proof. discriminate. Qed.

Lemma verify_fails_closed_witness :
  Manifest.verified
    (Manifest.verify toy_locate toy_parse toy_signature_valid toy_digest
       [] truncated_blob)
  = false
  /\ Manifest.verify toy_locate toy_parse toy_signature_valid toy_digest
       [] truncated_blob
     <> Manifest.verify toy_locate toy_parse toy_signature_valid toy_digest
          [] [false; false].
Proof.
  destruct (verify_fails_closed toy_locate toy_parse toy_signature_valid
              toy_digest [] truncated_blob [true; false; true] eq_refl
              truncated_blob_incomplete)
    as [Hunverified [_ [_ Hdiffers]]].
  split; [ exact Hunverified | ].
  exact (proj2 (proj2 (Hdiffers [false; false] eq_refl))).
Defined.

(** * Further properties of the pages *)

(** ** The landing page *)

Lemma or_else_nonempty (a b : string) : b <> "" -> Str.or_else a b <> "".
Proof. intros Hb. destruct a; simpl; [ exact Hb | discriminate ]. Qed.

(** X1: a quick scan with a file selected always ends with the busy flag
    cleared and with exactly one of the two outcomes on the page: a result
    and no error, or a non-empty error message and no result (a result left
    from an earlier scan is never kept); without a file, nothing changes. *)
Theorem quickScan_result_or_error
  (st : HomePage.ScanState) (file : HomePage.File)
  (fetched : Exc Fetch.Response) :
  HomePage.quickScan st None fetched = st
  /\ HomePage.scan_busy (HomePage.quickScan st (Some file) fetched) = false
  /\ ((HomePage.scan_err (HomePage.quickScan st (Some file) fetched) = None
       /\ exists data,
           HomePage.scan_result (HomePage.quickScan st (Some file) fetched)
           = Some data)
      \/ (HomePage.scan_result (HomePage.quickScan st (Some file) fetched) = None
          /\ exists msg,
              HomePage.scan_err (HomePage.quickScan st (Some file) fetched)
              = Some msg
              /\ msg <> "")).
Proof.
  split; [ reflexivity | ]. unfold HomePage.quickScan.
  match goal with
  | |- context [ match ?body with Ok _ => _ | Throw _ => _ end ] =>
      destruct body as [ data | m ]
  end; simpl.
  - split; [ reflexivity | ]. left. split; [ reflexivity | now exists data ].
  - split; [ reflexivity | ]. right. split; [ reflexivity | ].
    eexists. split; [ reflexivity | ]. now apply or_else_nonempty.
Qed.

Lemma quickScan_success (st : HomePage.ScanState) (file : HomePage.File)
  (res : Fetch.Response) (raw : Js.value) :
  Fetch.ok res = true ->
  Fetch.json res = Ok raw ->
  Js.is_nullish raw = false ->
  HomePage.scan_result (HomePage.quickScan st (Some file) (Ok res))
  = Some (HomePage.first_present_mapping raw file).
Proof.
  intros Hok Hjson Hraw. unfold HomePage.quickScan. simpl.
  rewrite Hok, Hjson. simpl.
  now rewrite (mapResponse_first_present raw file Hraw).
Qed.

(** X2: the badge shown after a scan follows the state the response
    carries, flat or nested: when the first present of [provenance_state]
    and [provenance.state] is the wire name of a provenance state, the badge
    is that state's label and colours. *)
Theorem scan_badge_follows_state
  (st : HomePage.ScanState) (file : HomePage.File) (res : Fetch.Response)
  (raw : Js.value) (state : HomePage.ProvenanceState) :
  Fetch.ok res = true ->
  Fetch.json res = Ok raw ->
  Js.is_nullish raw = false ->
  HomePage.first_present
    [HomePage.field raw "provenance_state";
     HomePage.nested raw "provenance" "state"] (Js.Str "")
  = Js.Str (HomePage.wire_name state) ->
  HomePage.stateBadge
    (HomePage.scan_result (HomePage.quickScan st (Some file) (Ok res)))
  = HomePage.badge_of state.
Proof.
  intros Hok Hjson Hraw Hstate.
  rewrite (quickScan_success st file res raw Hok Hjson Hraw).
  unfold HomePage.stateBadge.
  change (HomePage.provenance_state (HomePage.first_present_mapping raw file))
    with (HomePage.first_present
            [HomePage.field raw "provenance_state";
             HomePage.nested raw "provenance" "state"] (Js.Str "")).
  rewrite Hstate. destruct state; reflexivity.
Qed.

Lemma scan_badge_follows_state_witness :
  HomePage.stateBadge
    (HomePage.scan_result
       (HomePage.quickScan idle_scan (Some sample_file)
          (Ok nested_verified_response)))
  = HomePage.badge_of HomePage.VERIFIED_ORIGINAL.
Proof.
  exact (scan_badge_follows_state idle_scan sample_file
           nested_verified_response
           (Js.Obj [("provenance",
                     Js.Obj [("state", Js.Str "VERIFIED_ORIGINAL")])])
           HomePage.VERIFIED_ORIGINAL eq_refl eq_refl eq_refl eq_refl).
Defined.

Lemma prettyBytes_loop_stops (fuel : nat) :
  forall (x : float) (i : nat),
    i <= 3 -> 3 - i <= fuel ->
    exists k : nat,
      i + k <= 3
      /\ HomePage.prettyBytes_loop fuel x i
         = Some (Nat.iter k HomePage.div1024 x, i + k)
      /\ (i + k = 3
          \/ (1024 <=? Nat.iter k HomePage.div1024 x)%float = false)
      /\ (forall j, j < k ->
                    (1024 <=? Nat.iter j HomePage.div1024 x)%float = true).
Proof.
  induction fuel as [ | fuel IH ]; intros x i Hi Hfuel.
  - assert (i = 3) by lia. subst i. exists 0.
    simpl. rewrite andb_false_r.
    repeat split; [ lia | now left | intros j Hj; lia ].
  - simpl. destruct (1024 <=? x)%float eqn:Hge; simpl.
    + destruct (i <? 3)%nat eqn:Hlt.
      * apply Nat.ltb_lt in Hlt.
        destruct (IH (HomePage.div1024 x) (S i)) as [k [Hk [Hrun [Hstop Hall]]]];
          [ lia | lia | ].
        exists (S k). rewrite Nat.iter_succ_r.
        split; [ lia | ]. split; [ rewrite Hrun; do 2 f_equal; lia | ].
        split; [ destruct Hstop; [ left; lia | now right ] | ].
        intros [ | j ] Hj; [ exact Hge | ].
        rewrite Nat.iter_succ_r. apply Hall. lia.
      * apply Nat.ltb_ge in Hlt. exists 0.
        repeat split; [ lia | simpl; do 2 f_equal; lia | left; lia
                      | intros j Hj; lia ].
    + exists 0.
      repeat split; [ lia | simpl; do 2 f_equal; lia | now right
                    | intros j Hj; lia ].
Qed.

(** X3: on a number that is not NaN, [prettyBytes] divides by 1024 as few
    times as the loop's test allows and never more than three times. With
    [k] the number of divisions, the unit is the [k]-th of B, KB, MB, GB,
    every value that was divided passed the test [x >= 1024], and the
    number handed to [toFixed] fails that test unless the unit is GB. The
    unit is thus the smallest one in which the unrounded value is not at
    least 1024, and GB when there is none; the digits on the page are
    [toFixed]'s rounding of that value. *)
Theorem prettyBytes_smallest_unit
  (toFixed : float -> nat -> string) (fuel : nat) (n : float) :
  3 <= fuel ->
  PrimFloat.is_nan n = false ->
  exists (k : nat) (unit : string),
    k <= 3
    /\ nth_error ["B"; "KB"; "MB"; "GB"] k = Some unit
    /\ HomePage.prettyBytes toFixed fuel n
       = Some (toFixed (Nat.iter k (fun x => x / 1024)%float n)
                 (if (k =? 0)%nat then 0 else 1)
               ++ " " ++ unit)
    /\ (k = 3
        \/ (1024 <=? Nat.iter k (fun x => x / 1024)%float n)%float = false)
    /\ (forall j, j < k ->
                  (1024 <=? Nat.iter j (fun x => x / 1024)%float n)%float
                  = true).
Proof.
  intros Hfuel Hnan.
  destruct (prettyBytes_loop_stops fuel n 0)
    as [k [Hk [Hrun [Hstop Hall]]]]; [ lia | lia | ].
  simpl in Hk, Hrun, Hstop.
  assert (Hunit : nth_error HomePage.units k = Some (HomePage.unit_at k)).
  { unfold HomePage.unit_at.
    destruct (nth_error HomePage.units k) eqn:Hnth; [ reflexivity | ].
    apply nth_error_None in Hnth. simpl in Hnth. lia. }
  exists k, (HomePage.unit_at k).
  split; [ exact Hk | ]. split; [ exact Hunit | ].
  split; [ | split; assumption ].
  unfold HomePage.prettyBytes, Js.num_truthy.
  rewrite Hnan, orb_false_r, negb_involutive, andb_negb_r, Hrun.
  reflexivity.
Qed.

Lemma prettyBytes_smallest_unit_witness :
  exists (k : nat) (unit : string),
    k <= 3
    /\ nth_error ["B"; "KB"; "MB"; "GB"] k = Some unit
    /\ HomePage.prettyBytes toFixed_stub 3 1048575%float
       = Some (toFixed_stub (Nat.iter k (fun x => x / 1024)%float 1048575%float)
                 (if (k =? 0)%nat then 0 else 1)
               ++ " " ++ unit)
    /\ (k = 3
        \/ (1024 <=? Nat.iter k (fun x => x / 1024)%float 1048575%float)%float
           = false)
    /\ (forall j, j < k ->
                  (1024 <=? Nat.iter j (fun x => x / 1024)%float
                              1048575%float)%float
                  = true).
Proof.
  exact (prettyBytes_smallest_unit toFixed_stub 3 1048575%float
           (le_n 3) eq_refl).
Defined.

(** A number that is at least 1024 is neither NaN nor zero. *)
Lemma at_least_1024_truthy (x : float) :
  (1024 <=? x)%float = true ->
  PrimFloat.is_nan x = false /\ PrimFloat.eqb x 0%float = false.
Proof.
  unfold PrimFloat.is_nan. rewrite FloatAxioms.leb_spec, !FloatAxioms.eqb_spec.
  replace (Prim2SF 0) with (SpecFloat.S754_zero false) by reflexivity.
  replace (Prim2SF 1024)
    with (SpecFloat.S754_finite false 4503599627370496 (-42)) by reflexivity.
  destruct (Prim2SF x) as [ s | s | | s m e ]; intros Hge;
    try discriminate Hge.
  - destruct s; [ discriminate Hge | split; reflexivity ].
  - unfold SpecFloat.SFeqb, SpecFloat.SFcompare.
    change (IntDef.Z.compare e e) with (Z.compare e e).
    change (PosDef.Pos.compare_cont Eq m m) with (Pos.compare m m).
    rewrite Z.compare_refl, Pos.compare_refl.
    destruct s; split; reflexivity.
Qed.

Lemma prettyBytes_value_loop_number
  (convert : Js.value -> Exc float) (fuel : nat) :
  forall (x : float) (i : nat),
    HomePage.prettyBytes_value_loop convert fuel (Js.Num x) i
    = Ok (match HomePage.prettyBytes_loop fuel x i with
          | Some (y, k) => Some (Js.Num y, k)
          | None => None
          end).
Proof.
  induction fuel as [ | fuel IH ]; intros x i; simpl;
    destruct ((1024 <=? x)%float && (i <? 3)%nat); try reflexivity.
  apply IH.
Qed.

(** On a number the page's [prettyBytes] is the typed one. *)
Lemma prettyBytes_value_number
  (toFixed : float -> nat -> string) (convert : Js.value -> Exc float)
  (fuel : nat) (n : float) :
  HomePage.prettyBytes_value toFixed convert fuel (Js.Num n)
  = Ok (HomePage.prettyBytes toFixed fuel n).
Proof.
  unfold HomePage.prettyBytes_value, HomePage.prettyBytes. simpl.
  destruct (negb (Js.num_truthy n) && negb (PrimFloat.eqb n 0)); [ reflexivity | ].
  rewrite prettyBytes_value_loop_number. simpl.
  destruct (HomePage.prettyBytes_loop fuel n 0) as [ [y k] | ]; reflexivity.
Qed.

(** X4: what [prettyBytes] does with a [bytes] field that is not a number
    (the quick-scan mapping passes it on unchecked). A falsy value shows
    nothing. A truthy value whose numeric value is below 1024 (or NaN) is
    never divided, so it reaches [toFixed] as it is and the call throws a
    [TypeError]. A truthy value whose numeric value is at least 1024 is
    shown exactly like that number. *)
Theorem prettyBytes_value_not_a_number
  (toFixed : float -> nat -> string) (convert : Js.value -> Exc float)
  (fuel : nat) (v : Js.value) (nv : float) :
  3 <= fuel ->
  (forall x, v <> Js.Num x) ->
  HomePage.to_number convert v = Ok nv ->
  (Js.truthy v = false ->
   HomePage.prettyBytes_value toFixed convert fuel v = Ok (Some ""))
  /\ (Js.truthy v = true -> (1024 <=? nv)%float = false ->
      HomePage.prettyBytes_value toFixed convert fuel v
      = Throw HomePage.no_toFixed)
  /\ (Js.truthy v = true -> (1024 <=? nv)%float = true ->
      HomePage.prettyBytes_value toFixed convert fuel v
      = Ok (HomePage.prettyBytes toFixed fuel nv)).
Proof.
  intros Hfuel Hnot Hnum.
  assert (Hne : HomePage.strict_ne_zero v = true).
  { destruct v; try reflexivity. now destruct (Hnot x). }
  unfold HomePage.prettyBytes_value. rewrite Hne, andb_true_r.
  split; [ intros Hfalsy; now rewrite Hfalsy | ].
  destruct fuel as [ | fuel ]; [ lia | ].
  split; intros Htruthy Hge; rewrite Htruthy; cbn [negb].
  - cbn [HomePage.prettyBytes_value_loop]. rewrite Hnum. cbn [bindE].
    rewrite Hge. cbn [andb bindE].
    destruct v; try reflexivity. now destruct (Hnot x).
  - cbn [HomePage.prettyBytes_value_loop]. rewrite Hnum. cbn [bindE].
    rewrite Hge. cbn [andb HomePage.units length Nat.sub Nat.ltb Nat.leb].
    rewrite prettyBytes_value_loop_number. cbn [bindE].
    destruct (at_least_1024_truthy nv Hge) as [Hnan Hzero].
    unfold HomePage.prettyBytes, Js.num_truthy.
    rewrite Hnan, Hzero. cbn [orb negb andb HomePage.prettyBytes_loop].
    rewrite Hge. cbn [andb HomePage.units length Nat.sub Nat.ltb Nat.leb].
    destruct (HomePage.prettyBytes_loop fuel (HomePage.div1024 nv) 1)
      as [ [y k] | ]; reflexivity.
Qed.

Lemma prettyBytes_value_not_a_number_witness :
  HomePage.prettyBytes_value toFixed_stub convert_stub 3 (Js.Bool true)
  = Throw HomePage.no_toFixed
  /\ HomePage.prettyBytes_value toFixed_stub convert_stub 3 (Js.Str "4096")
     = Ok (HomePage.prettyBytes toFixed_stub 3 4096%float).
Proof.
  split.
  - refine (proj1 (proj2 (prettyBytes_value_not_a_number toFixed_stub
                            convert_stub 3 (Js.Bool true) 1%float
                            (le_n 3) _ eq_refl)) eq_refl eq_refl).
    intros x. discriminate.
  - refine (proj2 (proj2 (prettyBytes_value_not_a_number toFixed_stub
                            convert_stub 3 (Js.Str "4096") 4096%float
                            (le_n 3) _ eq_refl)) eq_refl eq_refl).
    intros x. discriminate.
Defined.

(** ** The report handlers of the case page *)

Lemma endsWith_pdf_named (a b : string) :
  Str.endsWith ".pdf" (a ++ b ++ ".pdf") = true.
Proof.
  unfold Str.endsWith. rewrite !rev_string_app. simpl.
  destruct (Str.rev_string b (Str.rev_string a "")); reflexivity.
Qed.

(** X5: the case-level report is saved under a [*.pdf] name exactly when
    the case id is present, the response is successful, its content type
    mentions [application/pdf] and its body can be read. *)
Theorem generateReport_pdf_exactly
  (busy0 : bool) (caseId : string) (res : Fetch.Response) :
  CasePage.saved_as_pdf (CasePage.generateReport busy0 caseId (Ok res)) = true
  <-> (Str.is_empty caseId = false
       /\ Fetch.ok res = true
       /\ Str.includes "application/pdf" (CasePage.lowered_content_type res)
          = true
       /\ exists body, Fetch.blob res = Ok body).
Proof.
  split.
  - intros Hsaved.
    destruct (Str.includes "application/pdf" (CasePage.lowered_content_type res))
      eqn:Hpdf;
      [ | rewrite (generateReport_never_mislabels busy0 caseId res Hpdf) in Hsaved;
          discriminate Hsaved ].
    revert Hsaved.
    unfold CasePage.generateReport, CasePage.generateReport_body,
      CasePage.require_ok.
    destruct (Str.is_empty caseId); [ discriminate | ]. cbn [bindE].
    destruct (Fetch.ok res);
      [ | destruct (Fetch.text res); discriminate ].
    cbn [bindE]. rewrite Hpdf.
    destruct (Fetch.blob res) as [ body | e ]; [ | discriminate ].
    intros _. repeat split. now exists body.
  - intros [Hid [Hok [Hpdf [body Hblob]]]].
    rewrite (generateReport_pdf busy0 caseId body res Hid Hok Hpdf Hblob).
    apply endsWith_pdf_named.
Qed.

Lemma try_catch_file_or_error
  (body : Exc (option string * (CasePage.payload * string))) (fallback : string) :
  fallback <> "" ->
  CasePage.busy (CasePage.try_catch body fallback) = false
  /\ (CasePage.download (CasePage.try_catch body fallback) = None ->
      exists msg,
        CasePage.err (CasePage.try_catch body fallback) = Some msg
        /\ msg <> "").
Proof.
  intros Hfb. destruct body as [ [msg file] | m ]; simpl.
  - split; [ reflexivity | discriminate ].
  - split; [ reflexivity | ]. intros _. eexists. split; [ reflexivity | ].
    now apply or_else_nonempty.
Qed.

(** X6: neither report handler fails silently: whatever the case id, the
    selection and the outcome of the request, a run that offers no file
    leaves a non-empty error message; the busy flag is cleared by every run
    that got past the guard and untouched by one that did not. *)
Theorem report_handlers_file_or_error
  (busy0 : bool) (caseId : string) (selected : option string)
  (fetched : Exc Fetch.Response) :
  (CasePage.download (CasePage.generateReport busy0 caseId fetched) = None ->
   exists msg,
     CasePage.err (CasePage.generateReport busy0 caseId fetched) = Some msg
     /\ msg <> "")
  /\ (CasePage.download
        (CasePage.generateEvidenceReport busy0 caseId selected fetched) = None ->
      exists msg,
        CasePage.err
          (CasePage.generateEvidenceReport busy0 caseId selected fetched)
        = Some msg
        /\ msg <> "")
  /\ CasePage.busy (CasePage.generateReport busy0 caseId fetched)
     = (if Str.is_empty caseId then busy0 else false)
  /\ CasePage.busy
       (CasePage.generateEvidenceReport busy0 caseId selected fetched)
     = (match selected with
        | Some evidenceId =>
            if Str.is_empty caseId || Str.is_empty evidenceId
            then busy0 else false
        | None => busy0
        end).
Proof.
  assert (Hfb : "Report failed" <> "") by discriminate.
  unfold CasePage.generateReport, CasePage.generateEvidenceReport.
  repeat split.
  - destruct (Str.is_empty caseId).
    + intros _. eexists. split; [ reflexivity | discriminate ].
    + apply try_catch_file_or_error, Hfb.
  - destruct selected as [ evidenceId | ].
    + destruct (Str.is_empty caseId || Str.is_empty evidenceId).
      * intros _. eexists. split; [ reflexivity | discriminate ].
      * apply try_catch_file_or_error, Hfb.
    + intros _. eexists. split; [ reflexivity | discriminate ].
  - destruct (Str.is_empty caseId); [ reflexivity | ].
    apply try_catch_file_or_error, Hfb.
  - destruct selected as [ evidenceId | ]; [ | reflexivity ].
    destruct (Str.is_empty caseId || Str.is_empty evidenceId); [ reflexivity | ].
    apply try_catch_file_or_error, Hfb.
Qed.

(** X7: the per-evidence report handler is blind to everything but the
    raw body: two successful responses with the same body give the same
    download, named [truthsig-evidence-<id>.pdf], whatever their content
    types and whatever their JSON or text readers would give. *)
Theorem generateEvidenceReport_blind_to_content_type
  (busy0 : bool) (caseId evidenceId body : string)
  (res res' : Fetch.Response) :
  Str.is_empty caseId = false ->
  Str.is_empty evidenceId = false ->
  Fetch.ok res = true -> Fetch.blob res = Ok body ->
  Fetch.ok res' = true -> Fetch.blob res' = Ok body ->
  CasePage.generateEvidenceReport busy0 caseId (Some evidenceId) (Ok res)
  = CasePage.generateEvidenceReport busy0 caseId (Some evidenceId) (Ok res')
  /\ CasePage.download
       (CasePage.generateEvidenceReport busy0 caseId (Some evidenceId) (Ok res))
     = Some (CasePage.ResponseBlob body,
             "truthsig-evidence-" ++ evidenceId ++ ".pdf")
  /\ CasePage.saved_as_pdf
       (CasePage.generateEvidenceReport busy0 caseId (Some evidenceId) (Ok res))
     = true.
Proof.
  intros Hcase Hev Hok Hblob Hok' Hblob'.
  rewrite (generateEvidenceReport_any_content_type busy0 caseId evidenceId body
             res Hcase Hev Hok Hblob).
  rewrite (generateEvidenceReport_any_content_type busy0 caseId evidenceId body
             res' Hcase Hev Hok' Hblob').
  repeat split. apply endsWith_pdf_named.
Qed.

Lemma generateEvidenceReport_blind_to_content_type_witness :
  CasePage.generateEvidenceReport false "case-1" (Some "ev-1")
    (Ok markdown_fallback)
  = CasePage.generateEvidenceReport false "case-1" (Some "ev-1")
      (Ok html_error_page).
Proof.
  exact (proj1 (generateEvidenceReport_blind_to_content_type false "case-1"
                  "ev-1" markdown_body markdown_fallback html_error_page
                  eq_refl eq_refl eq_refl eq_refl eq_refl eq_refl)).
Defined.

(** ** The state of the case page *)

Lemma find_selected_sound (sel : option string)
  (items : list CaseState.Evidence) (e : CaseState.Evidence) :
  CaseState.find_selected sel items = Some e ->
  In e items /\ sel = Some (CaseState.id e).
Proof.
  destruct sel as [ s | ]; simpl; [ | discriminate ].
  intros Hfind. apply find_some in Hfind as [Hin Heq].
  apply String.eqb_eq in Heq. split; [ exact Hin | now rewrite Heq ].
Qed.

Lemma find_selected_first (first : CaseState.Evidence)
  (rest : list CaseState.Evidence) :
  CaseState.find_selected (Some (CaseState.id first)) (first :: rest)
  = Some first.
Proof. simpl. now rewrite String.eqb_refl. Qed.

(** After the selection effect, a page with evidence has a selection, and
    it is the id of the evidence the page highlights. *)
Lemma selectionEffect_selected (st : CaseState.Page) (e : CaseState.Evidence) :
  CaseState.selectedEvidence (CaseState.selectionEffect st) = Some e ->
  In e (CaseState.evidence st)
  /\ CaseState.selectedEvidenceId (CaseState.selectionEffect st)
     = Some (CaseState.id e).
Proof.
  unfold CaseState.selectionEffect, CaseState.selectedEvidence.
  destruct (CaseState.evidence st) as [ | first rest ] eqn:Hev.
  - rewrite ?Hev. destruct (CaseState.selectedEvidenceId st); discriminate.
  - destruct (CaseState.no_selection (CaseState.selectedEvidenceId st)
              || match CaseState.find_selected (CaseState.selectedEvidenceId st)
                         (first :: rest) with
                 | Some _ => false
                 | None => true
                 end) eqn:Hcond.
    + cbn [CaseState.evidence CaseState.selectedEvidenceId]. rewrite ?Hev.
      rewrite find_selected_first. intros [= <-].
      split; [ now left | reflexivity ].
    + rewrite ?Hev. apply orb_false_elim in Hcond as [_ Hfound].
      destruct (CaseState.find_selected (CaseState.selectedEvidenceId st)
                  (first :: rest)) as [ found | ] eqn:Hfind;
        [ | discriminate Hfound ].
      intros [= <-]. exact (find_selected_sound _ _ _ Hfind).
Qed.

(** X8: the selection effect settles in one run (running it again changes
    nothing), touches nothing but the selected id, and leaves every page
    that has evidence with a selection that is the id of an evidence of the
    list, the one the page highlights. *)
Theorem selectionEffect_settles (st : CaseState.Page) :
  CaseState.selectionEffect (CaseState.selectionEffect st)
  = CaseState.selectionEffect st
  /\ CaseState.evidence (CaseState.selectionEffect st) = CaseState.evidence st
  /\ CaseState.busy (CaseState.selectionEffect st) = CaseState.busy st
  /\ CaseState.err (CaseState.selectionEffect st) = CaseState.err st
  /\ (CaseState.evidence st = []
      \/ exists e,
          CaseState.selectedEvidence (CaseState.selectionEffect st) = Some e
          /\ In e (CaseState.evidence st)
          /\ CaseState.selectedEvidenceId (CaseState.selectionEffect st)
             = Some (CaseState.id e)).
Proof.
  assert (Hsame : CaseState.evidence (CaseState.selectionEffect st)
                  = CaseState.evidence st).
  { unfold CaseState.selectionEffect.
    destruct (CaseState.evidence st) as [ | first rest ] eqn:Hev;
      [ exact Hev | ].
    destruct (_ || _); [ reflexivity | exact Hev ]. }
  split; [ | split; [ exact Hsame | split; [ | split ] ] ].
  - unfold CaseState.selectionEffect at 1. rewrite Hsame.
    destruct (CaseState.evidence st) as [ | first rest ] eqn:Hev;
      [ reflexivity | ].
    unfold CaseState.selectionEffect. rewrite Hev.
    destruct (CaseState.no_selection (CaseState.selectedEvidenceId st)
              || match CaseState.find_selected (CaseState.selectedEvidenceId st)
                         (first :: rest) with
                 | Some _ => false
                 | None => true
                 end) eqn:Hcond.
    + cbn [CaseState.selectedEvidenceId]. rewrite find_selected_first.
      rewrite orb_false_r.
      destruct (CaseState.no_selection (Some (CaseState.id first)));
        reflexivity.
    + now rewrite Hcond.
  - unfold CaseState.selectionEffect.
    destruct (CaseState.evidence st); [ reflexivity | ].
    destruct (_ || _); reflexivity.
  - unfold CaseState.selectionEffect.
    destruct (CaseState.evidence st); [ reflexivity | ].
    destruct (_ || _); reflexivity.
  - destruct (CaseState.evidence st) as [ | first rest ] eqn:Hev;
      [ now left | right ].
    destruct (CaseState.selectedEvidence (CaseState.selectionEffect st))
      as [ e | ] eqn:Hsel.
    + exists e. destruct (selectionEffect_selected st e Hsel) as [Hin Hid].
      rewrite Hev in Hin. now repeat split.
    + exfalso. unfold CaseState.selectedEvidence in Hsel.
      rewrite Hsame, ?Hev in Hsel.
      destruct (CaseState.find_selected _ (first :: rest)); discriminate.
Qed.

(** X9: the evidence the page highlights is always one of the list, and
    there is none only when the list is empty; so the "Create Evidence PDF"
    button is enabled exactly when the page is not busy and has evidence. *)
Theorem selectedEvidence_of_list (st : CaseState.Page) :
  (CaseState.selectedEvidence st = None <-> CaseState.evidence st = [])
  /\ (forall e, CaseState.selectedEvidence st = Some e ->
                In e (CaseState.evidence st))
  /\ (CaseState.createEvidencePdf_enabled st = true
      <-> CaseState.busy st = false /\ CaseState.evidence st <> []).
Proof.
  assert (Hnone : CaseState.selectedEvidence st = None
                  <-> CaseState.evidence st = []).
  { unfold CaseState.selectedEvidence. split.
    - destruct (CaseState.find_selected _ _); [ discriminate | ].
      destruct (CaseState.evidence st); [ reflexivity | discriminate ].
    - intros ->. destruct (CaseState.selectedEvidenceId st); reflexivity. }
  split; [ exact Hnone | split ].
  - intros e. unfold CaseState.selectedEvidence.
    destruct (CaseState.find_selected _ _) as [ found | ] eqn:Hfind.
    + intros [= <-]. exact (proj1 (find_selected_sound _ _ _ Hfind)).
    + destruct (CaseState.evidence st); [ discriminate | ].
      intros [= <-]. now left.
  - unfold CaseState.createEvidencePdf_enabled.
    destruct (CaseState.busy st); simpl.
    + split; [ discriminate | intros [H _]; discriminate H ].
    + destruct (CaseState.selectedEvidence st) as [ e | ] eqn:Hsel.
      * split; [ | reflexivity ]. intros _. split; [ reflexivity | ].
        intros Hempty. apply Hnone in Hempty. discriminate Hempty.
      * split; [ discriminate | ]. intros [_ Hne].
        exfalso. apply Hne. now apply Hnone.
Qed.

(** X10: once the selection effect has run, "Create Evidence PDF" asks
    for the evidence the page highlights: with a case id, a highlighted
    evidence whose id is not empty and a successful response, the file is
    named after that evidence. Before the effect has run this can fail: a
    freshly loaded list highlights its first evidence and enables the
    button while the handler still finds no selection. *)
Theorem createEvidencePdf_for_highlighted
  (caseId body : string) (st : CaseState.Page) (e : CaseState.Evidence)
  (res : Fetch.Response) :
  Str.is_empty caseId = false ->
  CaseState.selectedEvidence (CaseState.selectionEffect st) = Some e ->
  Str.is_empty (CaseState.id e) = false ->
  Fetch.ok res = true ->
  Fetch.blob res = Ok body ->
  CasePage.download
    (CaseState.createEvidencePdf caseId (CaseState.selectionEffect st) (Ok res))
  = Some (CasePage.ResponseBlob body,
          "truthsig-evidence-" ++ CaseState.id e ++ ".pdf")
  /\ (CaseState.createEvidencePdf_enabled unsettled_page = true
      /\ CaseState.selectedEvidence unsettled_page = Some (sample_item "ev-1")
      /\ CaseState.createEvidencePdf caseId unsettled_page (Ok res)
         = CasePage.failed false "Select evidence before creating a report.").
Proof.
  intros Hcase Hsel Hid Hok Hblob. split; [ | repeat split ].
  unfold CaseState.createEvidencePdf.
  destruct (selectionEffect_selected st e Hsel) as [_ Hselected].
  rewrite Hselected.
  now rewrite (generateEvidenceReport_any_content_type _ caseId (CaseState.id e)
                 body res Hcase Hid Hok Hblob).
Qed.

Lemma createEvidencePdf_for_highlighted_witness :
  CasePage.download
    (CaseState.createEvidencePdf "case-1"
       (CaseState.selectionEffect unsettled_page) (Ok markdown_fallback))
  = Some (CasePage.ResponseBlob markdown_body, "truthsig-evidence-ev-1.pdf").
Proof.
  exact (proj1 (createEvidencePdf_for_highlighted "case-1" markdown_body
                  unsettled_page (sample_item "ev-1") markdown_fallback
                  eq_refl eq_refl eq_refl eq_refl eq_refl)).
Defined.

Lemma all_settled_answered (l : CaseState.Listing) (order : list nat)
  (c : option CaseState.Case) (ev : option (list CaseState.Evidence))
  (logs : option (list CaseState.Event)) :
  CaseState.case_response l = Ok c ->
  CaseState.evidence_response l = Ok ev ->
  CaseState.events_response l = Ok logs ->
  CaseState.all_settled l order = Ok (c, ev, logs).
Proof.
  intros Hc Hev Hlogs. unfold CaseState.all_settled.
  now rewrite Hc, Hev, Hlogs.
Qed.

Lemma all_settled_rejected (l : CaseState.Listing) (order : list nat) :
  all_answered l = false ->
  exists m, CaseState.all_settled l order = Throw m.
Proof.
  unfold all_answered, CaseState.all_settled.
  destruct (CaseState.case_response l), (CaseState.evidence_response l),
    (CaseState.events_response l); try discriminate; intros _;
    match goal with
    | |- context [ CaseState.first_rejection ?r ?o ] =>
        destruct (CaseState.first_rejection r o) as [ m | ]
    end; eexists; reflexivity.
Qed.

(** X11: a refresh of the case page is all or nothing. When one of the
    three listing requests fails, the case, the evidence list and the event
    list all stay as they were and a non-empty error is shown; when all
    three answer, all three are replaced together (a [null] list counting as
    empty) and the error is cleared. The selected file, the selection and
    the busy flag are never touched, and without a case id nothing is. *)
Theorem refreshAll_all_or_nothing
  (caseId : string) (st : CaseState.Page) (l : CaseState.Listing)
  (order : list nat) :
  CaseState.file (CaseState.refreshAll caseId st l order) = CaseState.file st
  /\ CaseState.selectedEvidenceId (CaseState.refreshAll caseId st l order)
     = CaseState.selectedEvidenceId st
  /\ CaseState.busy (CaseState.refreshAll caseId st l order) = CaseState.busy st
  /\ (Str.is_empty caseId = true -> CaseState.refreshAll caseId st l order = st)
  /\ (Str.is_empty caseId = false -> all_answered l = false ->
      CaseState.caze (CaseState.refreshAll caseId st l order) = CaseState.caze st
      /\ CaseState.evidence (CaseState.refreshAll caseId st l order)
         = CaseState.evidence st
      /\ CaseState.events (CaseState.refreshAll caseId st l order)
         = CaseState.events st
      /\ exists msg,
          CaseState.err (CaseState.refreshAll caseId st l order) = Some msg
          /\ msg <> "")
  /\ (Str.is_empty caseId = false ->
      forall c ev logs,
        CaseState.case_response l = Ok c ->
        CaseState.evidence_response l = Ok ev ->
        CaseState.events_response l = Ok logs ->
        CaseState.caze (CaseState.refreshAll caseId st l order) = c
        /\ CaseState.evidence (CaseState.refreshAll caseId st l order)
           = default [] ev
        /\ CaseState.events (CaseState.refreshAll caseId st l order)
           = default [] logs
        /\ CaseState.err (CaseState.refreshAll caseId st l order) = None).
Proof.
  unfold CaseState.refreshAll.
  destruct (Str.is_empty caseId).
  - repeat split; try discriminate.
  - split; [ destruct (CaseState.all_settled l order) as [ [[c ev] logs] | m ];
             reflexivity | ].
    split; [ destruct (CaseState.all_settled l order) as [ [[c ev] logs] | m ];
             reflexivity | ].
    split; [ destruct (CaseState.all_settled l order) as [ [[c ev] logs] | m ];
             reflexivity | ].
    split; [ discriminate | ]. split.
    + intros _ Hfailed.
      destruct (all_settled_rejected l order Hfailed) as [m Hm]. rewrite Hm.
      repeat split. eexists. split; [ reflexivity | ].
      apply or_else_nonempty. discriminate.
    + intros _ c ev logs Hc Hev Hlogs.
      rewrite (all_settled_answered l order c ev logs Hc Hev Hlogs).
      repeat split.
Qed.

Lemma upload_request_outcome (fetched : Exc Fetch.Response) :
  (upload_accepted fetched = true
   /\ (res <-! fetched ;; CasePage.require_ok res "Upload failed") = Ok tt)
  \/ (upload_accepted fetched = false
      /\ exists m,
          (res <-! fetched ;; CasePage.require_ok res "Upload failed")
          = Throw m).
Proof.
  destruct fetched as [ res | m ]; simpl; [ | right; split; eauto ].
  unfold CasePage.require_ok. destruct (Fetch.ok res); [ now left | right ].
  split; [ reflexivity | ]. destruct (Fetch.text res); simpl; eauto.
Qed.

(** X12: an upload from the case page. Without a case id, or without a
    file, only the error message changes (the missing case id is reported
    first). With both, the busy flag ends cleared and the selection is
    kept; if the upload was refused or failed, the file stays selected, the
    lists are untouched and a non-empty error is shown; if it was accepted,
    the file is cleared whatever the refresh does, and the page shows the
    case, lists and error of that refresh. *)
Theorem uploadAndAnalyze_outcome
  (caseId : string) (st : CaseState.Page) (fetched : Exc Fetch.Response)
  (l : CaseState.Listing) (order : list nat) :
  (Str.is_empty caseId = true ->
   CaseState.uploadAndAnalyze caseId st fetched l order
   = CaseState.with_error st "Missing case id in URL.")
  /\ (Str.is_empty caseId = false -> CaseState.file st = None ->
      CaseState.uploadAndAnalyze caseId st fetched l order
      = CaseState.with_error st "Please select a file first.")
  /\ (Str.is_empty caseId = false ->
      forall f, CaseState.file st = Some f ->
      CaseState.busy (CaseState.uploadAndAnalyze caseId st fetched l order)
      = false
      /\ CaseState.selectedEvidenceId
           (CaseState.uploadAndAnalyze caseId st fetched l order)
         = CaseState.selectedEvidenceId st
      /\ (upload_accepted fetched = false ->
          CaseState.file (CaseState.uploadAndAnalyze caseId st fetched l order)
          = Some f
          /\ CaseState.caze
               (CaseState.uploadAndAnalyze caseId st fetched l order)
             = CaseState.caze st
          /\ CaseState.evidence
               (CaseState.uploadAndAnalyze caseId st fetched l order)
             = CaseState.evidence st
          /\ CaseState.events
               (CaseState.uploadAndAnalyze caseId st fetched l order)
             = CaseState.events st
          /\ exists msg,
              CaseState.err
                (CaseState.uploadAndAnalyze caseId st fetched l order)
              = Some msg
              /\ msg <> "")
      /\ (upload_accepted fetched = true ->
          CaseState.file (CaseState.uploadAndAnalyze caseId st fetched l order)
          = None
          /\ CaseState.caze
               (CaseState.uploadAndAnalyze caseId st fetched l order)
             = CaseState.caze (CaseState.refreshAll caseId st l order)
          /\ CaseState.evidence
               (CaseState.uploadAndAnalyze caseId st fetched l order)
             = CaseState.evidence (CaseState.refreshAll caseId st l order)
          /\ CaseState.events
               (CaseState.uploadAndAnalyze caseId st fetched l order)
             = CaseState.events (CaseState.refreshAll caseId st l order)
          /\ CaseState.err
               (CaseState.uploadAndAnalyze caseId st fetched l order)
             = CaseState.err (CaseState.refreshAll caseId st l order))).
Proof.
  unfold CaseState.uploadAndAnalyze.
  split; [ now intros -> | ]. split; [ now intros -> -> | ].
  intros Hcase f Hfile. rewrite Hcase, Hfile.
  destruct (upload_request_outcome fetched) as [ [Hacc Hbody] | [Hacc [m Hbody]] ];
    rewrite Hbody, Hacc.
  - split; [ reflexivity | ].
    unfold CaseState.refreshAll. rewrite Hcase.
    split; [ destruct (CaseState.all_settled l order) as [ [[c ev] logs] | e ];
             reflexivity | ].
    split; [ discriminate | ]. intros _.
    destruct (CaseState.all_settled l order) as [ [[c ev] logs] | e ];
      repeat split.
  - split; [ reflexivity | ]. split; [ reflexivity | ].
    split; [ | discriminate ]. intros _. cbn.
    repeat split; try exact Hfile.
    eexists. split; [ reflexivity | ]. apply or_else_nonempty. discriminate.
Qed.

Lemma uploadAndAnalyze_outcome_witness :
  CaseState.file
    (CaseState.uploadAndAnalyze "case-1" page_with_file (Ok refused_upload)
       failed_listing [1; 0; 2])
  = Some sample_file
  /\ CaseState.file
       (CaseState.uploadAndAnalyze "case-1" page_with_file
          (Ok markdown_fallback) failed_listing [1; 0; 2])
     = None.
Proof.
  destruct (proj2 (proj2 (uploadAndAnalyze_outcome "case-1" page_with_file
                            (Ok refused_upload) failed_listing [1; 0; 2]))
              eq_refl sample_file eq_refl) as [_ [_ [Hrefused _]]].
  destruct (proj2 (proj2 (uploadAndAnalyze_outcome "case-1" page_with_file
                            (Ok markdown_fallback) failed_listing [1; 0; 2]))
              eq_refl sample_file eq_refl) as [_ [_ [_ Haccepted]]].
  split; [ exact (proj1 (Hrefused eq_refl)) | exact (proj1 (Haccepted eq_refl)) ].
Defined.

(** ** The quick-scan panel *)

Lemma map_exc_length {A B : Type} (f : A -> Exc B) (l : list A) (out : list B) :
  Panel.map_exc f l = Ok out -> length out = length l.
Proof.
  revert out. induction l as [ | a l IH ]; intros out; simpl.
  - now intros [= <-].
  - destruct (f a) as [ b | e ]; [ | discriminate ]. simpl.
    destruct (Panel.map_exc f l) as [ bs | e ]; [ | discriminate ]. simpl.
    intros [= <-]. simpl. now rewrite (IH bs eq_refl).
Qed.

Lemma slice3_map_length {B : Type} (f : Js.value -> Exc B) (v : Js.value)
  (out : list B) :
  Panel.slice3_map f v = Ok out -> length out <= 3.
Proof.
  destruct v; simpl; try discriminate.
  intros Hmap. apply map_exc_length in Hmap. rewrite Hmap, length_take. lia.
Qed.

Lemma guarded_slice3_length {B : Type} (f : Js.value -> Exc B) (v : Js.value)
  (out : list B) :
  (if Panel.length_truthy v then Panel.slice3_map f v else Ok []) = Ok out ->
  length out <= 3.
Proof.
  destruct (Panel.length_truthy v).
  - apply slice3_map_length.
  - intros [= <-]. simpl. lia.
Qed.

Lemma video_is_not_image (kind : Js.value) :
  Js.is_str kind "video" = true -> Js.is_str kind "image" = false.
Proof.
  destruct kind; try discriminate. simpl. intros Hvideo.
  apply String.eqb_eq in Hvideo. now subst.
Qed.

(** The thumbnails block of the panel, for a given forensics value and
    its [type]. *)
Lemma panel_thumbs_capped (forensics kind : Js.value) (thumbs : list Js.value) :
  (if Js.is_str kind "video" then
     results <-! Js.opt_get forensics "results" ;;
     flagged <-! Js.opt_get results "flagged_frames" ;;
     if Panel.length_truthy flagged
     then Panel.slice3_map (fun frame => Js.get frame "index") flagged
     else Ok []
   else Ok []) = Ok thumbs ->
  length thumbs <= 3 /\ (Js.is_str kind "image" = true -> thumbs = []).
Proof.
  destruct (Js.is_str kind "video") eqn:Hvideo.
  - rewrite (video_is_not_image kind Hvideo).
    destruct (Js.opt_get forensics "results") as [ results | e ];
      [ | discriminate ]. cbn [bindE].
    destruct (Js.opt_get results "flagged_frames") as [ flagged | e ];
      [ | discriminate ]. cbn [bindE].
    intros Hthumbs. split; [ | discriminate ].
    exact (guarded_slice3_length _ _ _ Hthumbs).
  - intros [= <-]. split; [ simpl; lia | reflexivity ].
Qed.

(** X13: whenever the quick-scan panel renders, it lists at most three
    reasons and at most three flagged-frame thumbnails, and it never shows
    the heatmap together with thumbnails; with no analysis to show (no
    evidence, or a falsy [analysis_json]) it renders the placeholder. *)
Theorem panel_caps (st : CaseState.Page) :
  (forall view,
      Panel.render st = Ok view ->
      length (Panel.frames view) <= 3
      /\ (forall s, Panel.summary view = Some s ->
                    length (Panel.reasons s) <= 3)
      /\ (Panel.heatmap view = true -> Panel.frames view = []))
  /\ (Js.truthy (Panel.analysis st) = false ->
      Panel.render st = Ok Panel.placeholder).
Proof.
  unfold Panel.render. split.
  - intros view.
    destruct (if Js.truthy (Panel.analysis st) then _ else _)
      as [ shown | e ] eqn:Hshown; [ | discriminate ]. cbn [bindE].
    destruct (Js.opt_get (Panel.analysis st) "forensics") as [ forensics | e ];
      [ | discriminate ]. cbn [bindE].
    destruct (Js.opt_get forensics "type") as [ kind | e ];
      [ | discriminate ]. cbn [bindE].
    match goal with
    | |- context [ bindE ?block _ ] =>
        destruct block as [ thumbs | e ] eqn:Hthumbs; [ | discriminate ]
    end.
    cbn [bindE]. intros [= <-]. cbn [Panel.frames Panel.summary Panel.heatmap].
    destruct (panel_thumbs_capped forensics kind thumbs Hthumbs)
      as [Hcap Hexclusive].
    split; [ exact Hcap | split; [ | exact Hexclusive ] ].
    intros s ->. revert Hshown.
    destruct (Js.truthy (Panel.analysis st)); [ | discriminate ].
    destruct (Js.get (Panel.analysis st) "trust_score") as [ score | e ];
      [ | discriminate ]. cbn [bindE].
    destruct (Js.get (Panel.analysis st) "one_line_rationale") as [ why | e ];
      [ | discriminate ]. cbn [bindE].
    destruct (Js.get (Panel.analysis st) "top_reasons") as [ top | e ];
      [ | discriminate ]. cbn [bindE].
    destruct (if Panel.length_truthy top then _ else _)
      as [ listed | e ] eqn:Hlisted; [ | discriminate ].
    cbn [bindE]. intros [= <-]. cbn [Panel.reasons].
    exact (guarded_slice3_length _ _ _ Hlisted).
  - intros Hfalsy. rewrite Hfalsy. cbn [bindE].
    destruct (Panel.analysis st) as [ | | b | x | s | items | fields ];
      try discriminate Hfalsy; reflexivity.
Qed.

(** X14: the panel does not check the shape of [analysis_json], and a
    value of the wrong shape stops the render with a [TypeError]: a
    [top_reasons] that is a non-empty string (it has a length, but slicing
    it gives a string, which has no [map]), and likewise a video analysis
    whose [flagged_frames] list starts with [null]. *)
Theorem panel_wrong_shape_throws
  (st : CaseState.Page) (e : CaseState.Evidence)
  (fields : list (string * Js.value)) :
  CaseState.selectedEvidence st = Some e ->
  CaseState.analysis_json e = Js.Obj fields ->
  (forall s, Js.lookup_field "top_reasons" fields = Js.Str s -> s <> "" ->
             Panel.render st = Throw (Panel.not_a_function "map"))
  /\ (forall rest,
         Panel.length_truthy (Js.lookup_field "top_reasons" fields) = false ->
         HomePage.nested (Js.Obj fields) "forensics" "type" = Js.Str "video" ->
         HomePage.nested (HomePage.field (Js.Obj fields) "forensics")
           "results" "flagged_frames"
         = Js.Arr (Js.Null :: rest) ->
         Panel.render st = Throw Js.type_error).
Proof.
  intros Hsel Hjson. unfold Panel.render, Panel.analysis.
  rewrite Hsel, Hjson. cbn [Js.truthy Js.get bindE]. split.
  - intros s Htop Hs. rewrite Htop.
    destruct s as [ | c s ]; [ contradiction | ]. reflexivity.
  - intros rest Hnone Hkind Hframes. rewrite Hnone. cbn [bindE].
    unfold HomePage.nested, HomePage.field in Hkind, Hframes.
    unfold Js.opt_get at 1. cbn [Js.is_nullish Js.get bindE].
    destruct (Js.lookup_field "forensics" fields)
      as [ | | b | x | s | items | inner ]; try discriminate Hkind.
    cbn [Js.opt_get Js.is_nullish Js.get bindE].
    rewrite Hkind. cbn [Js.is_str bindE].
    change (String.eqb "video" "video") with true. cbv iota.
    destruct (Js.lookup_field "results" inner)
      as [ | | b | x | s | items | results ]; try discriminate Hframes.
    cbn [Js.is_nullish Js.get bindE].
    unfold Js.opt_get. cbn [Js.is_nullish Js.get bindE].
    rewrite Hframes. reflexivity.
Qed.

Lemma panel_wrong_shape_throws_witness :
  Panel.render malformed_page = Throw (Panel.not_a_function "map").
Proof.
  refine (proj1 (panel_wrong_shape_throws malformed_page malformed_item
                   malformed_analysis eq_refl eq_refl) "edited" eq_refl _).
  discriminate.
Defined.

(** ** More on the landing page and the case-level report *)

(** X15: [stateBadge] on anything that is not one of the three state
    names, strings or not: before any scan, and for every other value of
    [provenance_state], the badge has the generic styling, and its label is
    the value itself when it is truthy and a dash otherwise. *)
Theorem stateBadge_generic
  (result : option HomePage.AnalysisResult) :
  (forall st, state_of result <> Js.Str (HomePage.wire_name st)) ->
  HomePage.stateBadge result
  = {| HomePage.label :=
         Js.or_else (state_of result) (Js.Str HomePage.em_dash);
       HomePage.cls := HomePage.generic_cls |}.
Proof.
  intros Hother. unfold HomePage.stateBadge. fold (state_of result).
  destruct (state_of result) as [ | | b | x | s | items | fields ] eqn:Hstate;
    try reflexivity.
  - destruct b; reflexivity.
  - cbv beta zeta iota delta [Js.or_else Js.truthy].
    destruct (Js.num_truthy x) eqn:Htruthy; cbv iota;
      rewrite ?Htruthy; reflexivity.
  - destruct s as [ | c s ]; [ reflexivity | ].
    change (Js.or_else (Js.Str (String c s)) (Js.Str ""))
      with (Js.Str (String c s)).
    assert (Hne : forall st, String c s <> HomePage.wire_name st)
      by (intros st Heq; apply (Hother st); now rewrite Heq).
    pose proof (Hne HomePage.VERIFIED_ORIGINAL) as Hv.
    pose proof (Hne HomePage.ALTERED_OR_BROKEN_PROVENANCE) as Ha.
    pose proof (Hne HomePage.UNVERIFIABLE_NO_PROVENANCE) as Hu.
    cbn [HomePage.wire_name] in Hv, Ha, Hu.
    rewrite (is_str_wire_other _ _ Hv), (is_str_wire_other _ _ Ha),
      (is_str_wire_other _ _ Hu).
    reflexivity.
Qed.

Lemma stateBadge_generic_witness :
  HomePage.stateBadge None
  = {| HomePage.label := Js.Str HomePage.em_dash;
       HomePage.cls := HomePage.generic_cls |}
  /\ HomePage.stateBadge (Some (result_with_state (Js.Num 7%float)))
     = {| HomePage.label := Js.Num 7%float;
          HomePage.cls := HomePage.generic_cls |}.
Proof.
  split.
  - apply (stateBadge_generic None). intros st. discriminate.
  - apply (stateBadge_generic (Some (result_with_state (Js.Num 7%float)))).
    intros st. discriminate.
Defined.

Lemma first_present_present (l : list Js.value) (d : Js.value) :
  Js.is_nullish d = false -> Js.is_nullish (HomePage.first_present l d) = false.
Proof.
  intros Hd. induction l as [ | v l IH ]; simpl; [ exact Hd | ].
  destruct (Js.is_nullish v) eqn:Hv; [ exact IH | exact Hv ].
Qed.

Lemma first_present_not_null (l : list Js.value) :
  HomePage.first_present l Js.Undefined <> Js.Null.
Proof.
  induction l as [ | v l IH ]; simpl; [ discriminate | ].
  destruct (Js.is_nullish v) eqn:Hv; [ exact IH | ].
  intros ->. discriminate Hv.
Qed.

(** X16: [null] never reaches the page through the quick-scan mapping.
    Whatever the response holds, the six required fields of the mapped
    result (file name, media type, digest, size, state, summary) are neither
    [null] nor [undefined], and the six optional sections are never
    [null]. *)
Theorem mapResponse_never_null
  (raw : Js.value) (file : HomePage.File) (r : HomePage.AnalysisResult) :
  HomePage.mapResponse raw file = Ok r ->
  (Js.is_nullish (HomePage.filename r) = false
   /\ Js.is_nullish (HomePage.media_type r) = false
   /\ Js.is_nullish (HomePage.sha256 r) = false
   /\ Js.is_nullish (HomePage.bytes r) = false
   /\ Js.is_nullish (HomePage.provenance_state r) = false
   /\ Js.is_nullish (HomePage.summary r) = false)
  /\ (HomePage.ai_disclosure r <> Js.Null
      /\ HomePage.transformations r <> Js.Null
      /\ HomePage.findings r <> Js.Null
      /\ HomePage.c2pa r <> Js.Null
      /\ HomePage.metadata r <> Js.Null
      /\ HomePage.ffprobe r <> Js.Null).
Proof.
  intros Hmap.
  destruct (Js.is_nullish raw) eqn:Hraw.
  - destruct raw; try discriminate Hraw; discriminate Hmap.
  - rewrite (mapResponse_first_present raw file Hraw) in Hmap.
    injection Hmap as <-. unfold HomePage.first_present_mapping.
    cbn [HomePage.filename HomePage.media_type HomePage.sha256 HomePage.bytes
         HomePage.provenance_state HomePage.summary HomePage.ai_disclosure
         HomePage.transformations HomePage.findings HomePage.c2pa
         HomePage.metadata HomePage.ffprobe].
    repeat split;
      first [ apply first_present_present; reflexivity
            | apply first_present_not_null ].
Qed.

Lemma mapResponse_never_null_witness :
  Js.is_nullish
    (HomePage.provenance_state
       (HomePage.first_present_mapping nested_response sample_file))
  = false.
Proof.
  exact (proj1 (proj2 (proj2 (proj2 (proj2 (proj1
           (mapResponse_never_null nested_response sample_file
              (HomePage.first_present_mapping nested_response sample_file)
              eq_refl))))))).
Defined.

(** X17: a successful [application/json] answer whose body does not parse
    is not reported as an error by the case-level report handler: the parse
    failure is swallowed, and an empty object is saved as [*.json] in place
    of the body. *)
Theorem generateReport_unparseable_json
  (busy0 : bool) (caseId parse_error : string) (res : Fetch.Response) :
  Str.is_empty caseId = false ->
  Fetch.ok res = true ->
  Str.includes "application/pdf" (CasePage.lowered_content_type res) = false ->
  Str.includes "application/json" (CasePage.lowered_content_type res) = true ->
  Fetch.json res = Throw parse_error ->
  CasePage.generateReport busy0 caseId (Ok res)
  = {| CasePage.busy := false;
       CasePage.err := Some CasePage.json_notice;
       CasePage.download :=
         Some (CasePage.JsonDump (Js.Obj []) "application/json;charset=utf-8",
               "truthsig-report-" ++ caseId ++ ".json") |}.
Proof.
  intros Hid Hok Hpdf Hjson Hparse.
  unfold CasePage.generateReport, CasePage.generateReport_body,
    CasePage.require_ok.
  rewrite Hid. cbn [bindE]. rewrite Hok. cbn [bindE].
  rewrite Hpdf, Hjson, Hparse. reflexivity.
Qed.

Lemma generateReport_unparseable_json_witness :
  CasePage.generateReport false "case-1" (Ok truncated_json)
  = {| CasePage.busy := false;
       CasePage.err := Some CasePage.json_notice;
       CasePage.download :=
         Some (CasePage.JsonDump (Js.Obj []) "application/json;charset=utf-8",
               "truthsig-report-case-1.json") |}.
Proof.
  exact (generateReport_unparseable_json false "case-1"
           "Unexpected end of JSON input" truncated_json
           eq_refl eq_refl eq_refl eq_refl eq_refl).
Defined.
